(** * Session health checker

    A shallow embedding of [skills/session-health/scripts/check_sessions.py]:
    [analyze_session], [find_sessions] and [main], with the Python values,
    exceptions and the part of the file system they touch, followed by the
    properties of the scanner, the classifier, the exit status and the
    cleanup phase. *)

From Stdlib Require Import ZArith QArith String Ascii List Lia DecimalString Sorted Permutation.
From stdpp Require Import base gmap strings list.

Set Warnings "-register-all".

(** ** Python values

    [json.loads] builds [dict], [list], [str], [int], [float], [bool] and
    [None].  A finite float is kept as the rational it denotes; [NaN] and the
    infinities (which [json.loads] accepts) are constructors of their own.  A
    [dict] is the list of its items in insertion order; a Python [dict] holds
    a key once, and [dict_lookup] reads the first binding.  A [str] is the
    sequence of its characters. *)

Inductive pyfloat : Type :=
| FNan
| FInf (negative : bool)
| FFinite (q : Q).

Inductive json : Type :=
| JNull
| JBool (b : bool)
| JInt (z : Z)
| JFloat (x : pyfloat)
| JStr (s : string)
| JList (items : list json)
| JDict (entries : list (string * json)).

(** Exceptions carry what [str(e)] prints. *)
Inductive exn : Type :=
| AttributeError (msg : string)
| TypeError (msg : string)
| OSError (msg : string).

Definition str_of_exn (e : exn) : string :=
  match e with
  | AttributeError msg => msg
  | TypeError msg => msg
  | OSError msg => msg
  end.

Inductive result (A : Type) : Type :=
| Ok (a : A)
| Raise (e : exn).
Arguments Ok {A} a.
Arguments Raise {A} e.

(** [type(v).__name__] *)
Definition type_name (v : json) : string :=
  match v with
  | JNull => "NoneType"
  | JBool _ => "bool"
  | JInt _ => "int"
  | JFloat _ => "float"
  | JStr _ => "str"
  | JList _ => "list"
  | JDict _ => "dict"
  end.

(** [bool(v)] *)
Definition truthy (v : json) : bool :=
  match v with
  | JNull => false
  | JBool b => b
  | JInt z => negb (z =? 0)%Z
  | JFloat FNan => true
  | JFloat (FInf _) => true
  | JFloat (FFinite q) => negb (Qeq_bool q 0)
  | JStr s => negb (String.eqb s "")
  | JList items => match items with [] => false | _ :: _ => true end
  | JDict entries => match entries with [] => false | _ :: _ => true end
  end.

(** [v == s] for a [str] literal [s]: only a [str] equals a [str]. *)
Definition str_is (v : json) (s : string) : bool :=
  match v with
  | JStr t => String.eqb t s
  | _ => false
  end.

Fixpoint dict_lookup (k : string) (d : list (string * json)) : option json :=
  match d with
  | [] => None
  | (k', v) :: d' => if String.eqb k' k then Some v else dict_lookup k d'
  end.

(** [d.get(k, default)] on a [dict] *)
Definition dict_get (d : list (string * json)) (k : string) (default : json) : json :=
  match dict_lookup k d with
  | Some v => v
  | None => default
  end.

(** [v.get(k, default)] on any value: only a [dict] has the method. *)
Definition no_get (v : json) : exn :=
  AttributeError ("'" +:+ type_name v +:+ "' object has no attribute 'get'").

Definition py_get (v : json) (k : string) (default : json) : result json :=
  match v with
  | JDict d => Ok (dict_get d k default)
  | _ => Raise (no_get v)
  end.

(** [s.startswith(pre)] *)
Fixpoint startswith (s pre : string) {struct pre} : bool :=
  match pre with
  | EmptyString => true
  | String a pre' =>
      match s with
      | EmptyString => false
      | String b s' => Ascii.eqb a b && startswith s' pre'
      end
  end.

(** [needle in hay] on strings: [needle] starts at some position of [hay]. *)
Fixpoint str_in (needle hay : string) : bool :=
  startswith hay needle ||
  match hay with
  | EmptyString => false
  | String _ rest => str_in needle rest
  end.

(** [str(n)] for a natural number *)
Definition str_of_nat (n : nat) : string := NilZero.string_of_uint (Nat.to_uint n).

(** ** [collections.Counter]

    The keys are the hashable values among [json]; [True], [1] and [1.0]
    are one key, and so are all [NaN]s ([json.loads] hands out one object).
    Items stay in insertion order, which [most_common] relies on. *)

Definition hashable (v : json) : bool :=
  match v with
  | JList _ | JDict _ => false
  | _ => true
  end.

Definition numeric (v : json) : option pyfloat :=
  match v with
  | JBool b => Some (FFinite (if b then 1 else 0))
  | JInt z => Some (FFinite (inject_Z z))
  | JFloat x => Some x
  | _ => None
  end.

Definition float_eqb (x y : pyfloat) : bool :=
  match x, y with
  | FNan, FNan => true
  | FInf a, FInf b => Bool.eqb a b
  | FFinite p, FFinite q => Qeq_bool p q
  | _, _ => false
  end.

Definition key_eqb (a b : json) : bool :=
  match a, b with
  | JNull, JNull => true
  | JStr s, JStr t => String.eqb s t
  | _, _ =>
      match numeric a, numeric b with
      | Some x, Some y => float_eqb x y
      | _, _ => false
      end
  end.

Definition counter : Type := list (json * nat).

(** [c[k] += 1] for a hashable [k] *)
Fixpoint counter_incr (k : json) (c : counter) : counter :=
  match c with
  | [] => [(k, 1)]
  | (k', n) :: c' =>
      if key_eqb k' k then (k', S n) :: c' else (k', n) :: counter_incr k c'
  end.

(** [sorted(c.items(), key=itemgetter(1), reverse=True)]: stable, so equal
    counts keep their insertion order. *)
Fixpoint insert_desc (x : json * nat) (l : list (json * nat)) : list (json * nat) :=
  match l with
  | [] => [x]
  | y :: l' => if snd y <=? snd x then x :: y :: l' else y :: insert_desc x l'
  end.

Fixpoint sort_desc (l : list (json * nat)) : list (json * nat) :=
  match l with
  | [] => []
  | x :: l' => insert_desc x (sort_desc l')
  end.

(** [c.most_common(n)], which is [heapq.nlargest(n, c.items(), key=itemgetter(1))] *)
Definition most_common (n : nat) (c : counter) : list (json * nat) :=
  firstn n (sort_desc c).

(** ** Files

    A line of a session file is kept as what [json.loads] makes of it:
    [Undecodable] when it raises [JSONDecodeError], the decoded value
    otherwise.  A file is what [stat], [open] and [os.remove] answer for
    its path: its size in bytes, its lines or the message of the error
    [open] raises, and whether it can be unlinked. *)

Inductive line : Type :=
| Undecodable
| Decoded (msg : json).

Inductive file_contents : Type :=
| Unreadable (err : string)
| Text (lines : list line).

Record file : Type := mkFile {
  st_size : N;
  contents : file_contents;
  removable : bool
}.

(** ** The statistics dictionary of [analyze_session] *)

Record stats : Type := mkStats {
  path : string;
  name : string;
  size_kb : Q;
  message_count : nat;
  warmup_errors : nat;
  tool_calls : counter;
  is_sidechain : bool;
  issues : list string
}.

Definition incr_message_count (st : stats) : stats :=
  mkStats (path st) (name st) (size_kb st) (S (message_count st)) (warmup_errors st)
          (tool_calls st) (is_sidechain st) (issues st).

Definition incr_warmup_errors (st : stats) : stats :=
  mkStats (path st) (name st) (size_kb st) (message_count st) (S (warmup_errors st))
          (tool_calls st) (is_sidechain st) (issues st).

Definition incr_tool_call (cmd : json) (st : stats) : stats :=
  mkStats (path st) (name st) (size_kb st) (message_count st) (warmup_errors st)
          (counter_incr cmd (tool_calls st)) (is_sidechain st) (issues st).

Definition set_sidechain (st : stats) : stats :=
  mkStats (path st) (name st) (size_kb st) (message_count st) (warmup_errors st)
          (tool_calls st) true (issues st).

Definition append_issue (i : string) (st : stats) : stats :=
  mkStats (path st) (name st) (size_kb st) (message_count st) (warmup_errors st)
          (tool_calls st) (is_sidechain st) (issues st ++ [i]).

(** ** Statements that update [stats] and may raise

    [stats] is one mutable dictionary: what a statement has written stays
    written when a later one raises. *)

Definition M (A : Type) : Type := stats -> result A * stats.

#[global] Instance M_ret : MRet M := fun A a st => (Ok a, st).

#[global] Instance M_bind : MBind M := fun A B k m st =>
  match m st with
  | (Ok a, st') => k a st'
  | (Raise e, st') => (Raise e, st')
  end.

Definition modify (f : stats -> stats) : M unit := fun st => (Ok tt, f st).

Definition lift {A : Type} (r : result A) : M A := fun st => (r, st).

(** [for x in l: body(x)] *)
Fixpoint for_each {A : Type} (body : A -> M unit) (l : list A) : M unit :=
  match l with
  | [] => mret tt
  | x :: l' => body x ;; for_each body l'
  end.

(** [stats["tool_calls"][cmd] += 1]: hashing [cmd] raises on a list or dict. *)
Definition unhashable (v : json) : exn :=
  TypeError ("unhashable type: '" +:+ type_name v +:+ "'").

Definition count_tool_call (cmd : json) : M unit :=
  if hashable cmd then modify (incr_tool_call cmd)
  else lift (Raise (unhashable cmd)).

(** The body of the loop over the content of a [user] record. *)
Definition check_warmup (item : json) : M unit :=
  match item with
  | JDict d =>
      if str_is (dict_get d "content" JNull) "Warmup" && truthy (dict_get d "is_error" JNull)
      then modify incr_warmup_errors
      else mret tt
  | _ => mret tt
  end.

(** The body of the loop over the content of an [assistant] record. *)
Definition track_tool_call (item : json) : M unit :=
  match item with
  | JDict d =>
      if str_is (dict_get d "type" JNull) "tool_use" then
        match dict_get d "input" (JDict []) with
        | JDict tool_input =>
            count_tool_call (dict_get tool_input "command" (dict_get d "name" (JStr "unknown")))
        | _ => mret tt
        end
      else mret tt
  | _ => mret tt
  end.

(** [content = msg.get("message", {}).get("content", [])], then the loop
    over it when it is a list. *)
Definition over_content (msg : json) (body : json -> M unit) : M unit :=
  message ← lift (py_get msg "message" (JDict []));
  content ← lift (py_get message "content" (JList []));
  match content with
  | JList items => for_each body items
  | _ => mret tt
  end.

(** What the [try] around [json.loads] does with a decoded line. *)
Definition scan_record (msg : json) : M unit :=
  sidechain ← lift (py_get msg "isSidechain" JNull);
  (if truthy sidechain then modify set_sidechain else mret tt) ;;
  ty ← lift (py_get msg "type" JNull);
  (if str_is ty "user" then over_content msg check_warmup else mret tt) ;;
  ty' ← lift (py_get msg "type" JNull);
  (if str_is ty' "assistant" then over_content msg track_tool_call else mret tt).

(** One turn of [for line in f]: the counter goes up before the line is
    decoded, and a [JSONDecodeError] only moves on to the next line. *)
Definition scan_line (ln : line) : M unit :=
  modify incr_message_count ;;
  match ln with
  | Undecodable => mret tt
  | Decoded msg => scan_record msg
  end.

(** ** Formatting *)

(** [jsonl_path.name]: what follows the last slash. *)
Fixpoint after_last_slash (p acc : string) : string :=
  match p with
  | EmptyString => acc
  | String c rest =>
      if Ascii.eqb c "/" then after_last_slash rest ""
      else after_last_slash rest (acc +:+ String c "")
  end.

Definition path_name (p : string) : string := after_last_slash p "".

(** The integer [format(x, ".0f")] prints: the nearest one, the even one of
    the two when [x] is half-way.  [size_kb] is [st_size / 1024], a float that
    is this rational exactly for every size below [2^53] bytes. *)
Definition round_half_even (x : Q) : Z :=
  let n := Qnum x in
  let d := Z.pos (Qden x) in
  let fl := (n / d)%Z in
  let r2 := (2 * (n mod d))%Z in
  if (r2 <? d)%Z then fl
  else if (d <? r2)%Z then (fl + 1)%Z
  else if Z.even fl then fl else (fl + 1)%Z.

Definition format_0f (x : Q) : string :=
  NilZero.string_of_int (Z.to_int (round_half_even x)).

Definition warmup_issue (n : nat) : string :=
  "CRITICAL: Warmup loop detected (" +:+ str_of_nat n +:+ " warmup errors)".

Definition messages_issue (n : nat) : string :=
  "WARNING: Excessive messages (" +:+ str_of_nat n +:+ ")".

Definition command_issue (count : nat) (cmd : string) : string :=
  "WARNING: Command repeated " +:+ str_of_nat count +:+ "x: "
  +:+ String.substring 0 50 cmd +:+ "...".

Definition size_issue (kb : Q) : string :=
  "WARNING: Large session file (" +:+ format_0f kb +:+ "KB)".

Definition read_error_issue (e : string) : string := "Error reading file: " +:+ e.

(** ** [analyze_session] *)

Definition read : M stats := fun st => (Ok st, st).

Definition not_subscriptable (v : json) : exn :=
  TypeError ("'" +:+ type_name v +:+ "' object is not subscriptable").

(** The body of [for cmd, count in stats["tool_calls"].most_common(5)]:
    [cmd[:50]] is asked for only past the threshold, and only a [str] has it. *)
Definition check_command (entry : json * nat) : M unit :=
  let (cmd, count) := entry in
  if 50 <? count then
    match cmd with
    | JStr s => modify (append_issue (command_issue count s))
    | _ => lift (Raise (not_subscriptable cmd))
    end
  else mret tt.

(** The statements after the [try] block. *)
Definition detect_issues : M unit :=
  st ← read;
  (if 10 <? warmup_errors st
   then modify (append_issue (warmup_issue (warmup_errors st))) else mret tt) ;;
  (if 500 <? message_count st
   then modify (append_issue (messages_issue (message_count st))) else mret tt) ;;
  for_each check_command (most_common 5 (tool_calls st)) ;;
  (if negb (Qle_bool (size_kb st) 2000)
   then modify (append_issue (size_issue (size_kb st))) else mret tt).

Definition initial_stats (jsonl_path : string) (f : file) : stats :=
  mkStats jsonl_path (path_name jsonl_path) (Z.of_N (st_size f) # 1024) 0 0 [] false [].

(** The [try] block: [open] raises on a file that cannot be read, and any
    statement of the loop may raise; either way the dictionary keeps what
    was written to it. *)
Definition read_file (f : file) : M unit :=
  match contents f with
  | Unreadable err => lift (Raise (OSError err))
  | Text lines => for_each scan_line lines
  end.

(** [stat()] is called before the [try]: on a path with no file it raises
    and nothing catches it.  The handler of the [try] appends the issue and
    returns the dictionary as it stands; the rules run only when nothing
    was raised, and an exception they raise is not caught either. *)
Definition analyze_session (fs : gmap string file) (jsonl_path : string) : result stats :=
  match fs !! jsonl_path with
  | None =>
      Raise (OSError ("[Errno 2] No such file or directory: '" +:+ jsonl_path +:+ "'"))
  | Some f =>
      match read_file f (initial_stats jsonl_path f) with
      | (Raise e, st) => Ok (append_issue (read_error_issue (str_of_exn e)) st)
      | (Ok _, st) =>
          match detect_issues st with
          | (Raise e, _) => Raise e
          | (Ok _, st') => Ok st'
          end
      end
  end.

(** ** [find_sessions] and [main]

    The world a run meets: what [Path.exists] and [Path.rglob("*.jsonl")]
    answer for a base path, and the files behind the paths when they are
    analysed (a path that [rglob] yielded may have no file by then), and
    the characters outside ASCII that [sys.stdout] can write: those its
    encoding has, or all of them when its error handler replaces the others. *)

Record world : Type := mkWorld {
  path_exists : string -> bool;
  rglob : string -> list string;
  files : gmap string file;
  encodes : ascii -> bool
}.

(** [print(s)] writes [s] when [sys.stdout] can write each of its characters
    ([true]) and raises [UnicodeEncodeError] otherwise ([false]); the ASCII
    characters it can always write. *)
Definition is_ascii (c : ascii) : bool :=
  match c with
  | Ascii _ _ _ _ _ _ _ b7 => negb b7
  end.

Fixpoint prints (w : world) (s : string) : bool :=
  match s with
  | EmptyString => true
  | String c s' => (is_ascii c || encodes w c) && prints w s'
  end.

Definition find_sessions (w : world) (base_path : string) : list string :=
  fold_left (fun sessions jsonl => sessions ++ [jsonl]) (rglob w base_path) [].

Record args : Type := mkArgs {
  args_fix : bool;
  args_path : string;
  args_json : bool
}.

(** [os.remove(p)] *)
Definition os_remove (p : string) (fs : gmap string file) : result (gmap string file) :=
  match fs !! p with
  | None => Raise (OSError ("[Errno 2] No such file or directory: '" +:+ p +:+ "'"))
  | Some f =>
      if removable f then Ok (delete p fs)
      else Raise (OSError ("[Errno 13] Permission denied: '" +:+ p +:+ "'"))
  end.

(** The loop [for session_path in sessions]; an exception that leaves
    [analyze_session] ends it. *)
Fixpoint scan_sessions (fs : gmap string file) (sessions : list string)
    (results problematic : list stats) : result (list stats * list stats) :=
  match sessions with
  | [] => Ok (results, problematic)
  | session_path :: rest =>
      match analyze_session fs session_path with
      | Raise e => Raise e
      | Ok st =>
          scan_sessions fs rest (results ++ [st])
            (match issues st with [] => problematic | _ :: _ => problematic ++ [st] end)
      end
  end.

(** The listing of one problematic session (lines 139 to 146): the name and
    each issue are printed; the lines between them hold numbers and a
    boolean only. *)
Definition report_stats (w : world) (st : stats) : bool :=
  prints w (String "010" (name st))
  && forallb (fun issue => prints w ("  -> " +:+ issue)) (issues st).

(** The loop [for stats in problematic] of the listing: [true] when every
    [print] of it returns. *)
Definition report (w : world) (problematic : list stats) : bool :=
  forallb (report_stats w) problematic.

(** The loop of the cleanup phase: [any("CRITICAL" in i for i in stats["issues"])]
    decides; what [os.remove] or the [print] after it raises is caught, and
    the handler prints the name and the exception.  The handler's own
    [print] is not guarded: when it raises the loop ends there ([false]).
    After a [print] of the name that raised, the handler's, which holds the
    name too, raises in turn. *)
Fixpoint cleanup (w : world) (problematic : list stats) (fs : gmap string file)
    : bool * gmap string file :=
  match problematic with
  | [] => (true, fs)
  | st :: rest =>
      if existsb (str_in "CRITICAL") (issues st) then
        match os_remove (path st) fs with
        | Ok fs' =>
            if prints w ("Removed: " +:+ name st) then cleanup w rest fs'
            else (false, fs')
        | Raise e =>
            if prints w ("Failed to remove " +:+ name st +:+ ": " +:+ str_of_exn e)
            then cleanup w rest fs
            else (false, fs)
        end
      else cleanup w rest fs
  end.

(** What a run leaves: the status handed to the system on exit
    ([sys.exit(main())]: the returned count, 0 for [None], 1 for [sys.exit(1)]
    and for an uncaught exception; a POSIX system keeps its low 8 bits), the
    statistics it gathered and the files on disk.

    In [main] the output of [--json] is what [json.dumps] returns, which is
    ASCII, and so are the headers, the counts and the sizes of the listing;
    the [print] of a missing path comes right before [sys.exit(1)], and the
    status is 1 whether it returns or raises. *)
Record run : Type := mkRun {
  exit_status : nat;
  results : list stats;
  problematic : list stats;
  disk : gmap string file
}.

Definition main (a : args) (w : world) : run :=
  let base_path := args_path a in
  if negb (path_exists w base_path) then mkRun 1 [] [] (files w)
  else
    let sessions := find_sessions w base_path in
    match scan_sessions (files w) sessions [] [] with
    | Raise _ => mkRun 1 [] [] (files w)
    | Ok (results, problematic) =>
        if args_json a then mkRun 0 results problematic (files w)
        else
          match problematic with
          | [] => mkRun (length problematic) results problematic (files w)
          | _ :: _ =>
              if report w problematic then
                if args_fix a then
                  match cleanup w problematic (files w) with
                  | (true, fs') => mkRun (length problematic) results problematic fs'
                  | (false, fs') => mkRun 1 results problematic fs'
                  end
                else mkRun (length problematic) results problematic (files w)
              else mkRun 1 results problematic (files w)
          end
    end.

(** ** What a line contributes, read off the record

    The data model's reading of a record, which the properties below compare
    with the scan: the type of the record, its content items, the items that
    are warmup errors, and the name a tool-use item is counted under. *)

Definition record_type (msg : json) : json :=
  match msg with
  | JDict d =>
      match dict_lookup "type" d with
      | Some ty => ty
      | None => JNull
      end
  | _ => JNull
  end.

Definition content_items (msg : json) : list json :=
  match msg with
  | JDict d =>
      match dict_lookup "message" d with
      | Some (JDict m) =>
          match dict_lookup "content" m with
          | Some (JList items) => items
          | _ => []
          end
      | _ => []
      end
  | _ => []
  end.

Definition is_warmup_error (item : json) : bool :=
  match item with
  | JDict d =>
      match dict_lookup "content" d, dict_lookup "is_error" d with
      | Some (JStr s), Some e => String.eqb s "Warmup" && truthy e
      | _, _ => false
      end
  | _ => false
  end.

Definition name_or_unknown (d : list (string * json)) : json :=
  match dict_lookup "name" d with
  | Some n => n
  | None => JStr "unknown"
  end.

(** The name a content item is counted under, if it is counted: an item
    of type [tool_use] whose [input] is a mapping or is missing. *)
Definition tool_name (item : json) : option json :=
  match item with
  | JDict d =>
      match dict_lookup "type" d with
      | Some (JStr t) =>
          if String.eqb t "tool_use" then
            match dict_lookup "input" d with
            | None => Some (name_or_unknown d)
            | Some (JDict tool_input) =>
                match dict_lookup "command" tool_input with
                | Some c => Some c
                | None => Some (name_or_unknown d)
                end
            | Some _ => None
            end
          else None
      | _ => None
      end
  | _ => None
  end.

(** Counting a sequence of names stops at the first one that cannot be hashed. *)
Fixpoint count_names (names : list json) (c : counter) : counter :=
  match names with
  | [] => c
  | k :: rest => if hashable k then count_names rest (counter_incr k c) else c
  end.

Fixpoint names_result (names : list json) : result unit :=
  match names with
  | [] => Ok tt
  | k :: rest => if hashable k then names_result rest else Raise (unhashable k)
  end.

Definition line_warmups (ln : line) : nat :=
  match ln with
  | Undecodable => 0
  | Decoded msg =>
      if str_is (record_type msg) "user"
      then length (List.filter is_warmup_error (content_items msg))
      else 0
  end.

Definition line_names (ln : line) : list json :=
  match ln with
  | Undecodable => []
  | Decoded msg =>
      if str_is (record_type msg) "assistant"
      then omap tool_name (content_items msg)
      else []
  end.

Definition line_sidechain (ln : line) : bool :=
  match ln with
  | Decoded (JDict d) =>
      match dict_lookup "isSidechain" d with
      | Some v => truthy v
      | None => false
      end
  | _ => false
  end.

Definition message_result (d : list (string * json)) (r : result unit) : result unit :=
  match dict_get d "message" (JDict []) with
  | JDict _ => r
  | v => Raise (no_get v)
  end.

Definition line_result (ln : line) : result unit :=
  match ln with
  | Undecodable => Ok tt
  | Decoded (JDict d) =>
      if str_is (dict_get d "type" JNull) "user" then message_result d (Ok tt)
      else if str_is (dict_get d "type" JNull) "assistant"
      then message_result d (names_result (line_names ln))
      else Ok tt
  | Decoded v => Raise (no_get v)
  end.

Definition with_counts (m w : nat) (c : counter) (sc : bool) (st : stats) : stats :=
  mkStats (path st) (name st) (size_kb st) m w c sc (issues st).

(** The statistics of a file of another size. *)
Definition with_size (kb : Q) (st : stats) : stats :=
  mkStats (path st) (name st) kb (message_count st) (warmup_errors st)
          (tool_calls st) (is_sidechain st) (issues st).

Definition add_issues (l : list string) (st : stats) : stats :=
  mkStats (path st) (name st) (size_kb st) (message_count st) (warmup_errors st)
          (tool_calls st) (is_sidechain st) (issues st ++ l).

(** What the loop over [most_common(5)] appends, and how it ends. *)
Fixpoint command_warnings (l : list (json * nat)) : result unit * list string :=
  match l with
  | [] => (Ok tt, [])
  | (cmd, count) :: l' =>
      if 50 <? count then
        match cmd with
        | JStr s => (fst (command_warnings l'), command_issue count s :: snd (command_warnings l'))
        | _ => (Raise (not_subscriptable cmd), [])
        end
      else command_warnings l'
  end.

(** The kinds of issue, told apart by how the message starts. *)
Definition is_read_error (i : string) : bool := startswith i "Error reading file: ".
Definition is_critical (i : string) : bool := startswith i "CRITICAL: ".
Definition is_warning (i : string) : bool := startswith i "WARNING: ".
Definition is_command_warning (i : string) : bool := startswith i "WARNING: Command repeated ".
Definition is_size_warning (i : string) : bool := startswith i "WARNING: Large session file (".

(** ** Sample records and files *)

Definition user_record (items : list json) : json :=
  JDict [("type", JStr "user"); ("message", JDict [("role", JStr "user"); ("content", JList items)])].

Definition assistant_record (items : list json) : json :=
  JDict [("type", JStr "assistant");
         ("message", JDict [("role", JStr "assistant"); ("content", JList items)])].

Definition warmup_item : json :=
  JDict [("type", JStr "tool_result"); ("content", JStr "Warmup"); ("is_error", JBool true)].

Definition bash_item (command : string) : json :=
  JDict [("type", JStr "tool_use"); ("name", JStr "Bash");
         ("input", JDict [("command", JStr command)])].

(** A tool-use item whose [input] is a string where a mapping is expected. *)
Definition bash_item_str_input : json :=
  JDict [("type", JStr "tool_use"); ("name", JStr "Bash"); ("input", JStr "ls")].

(** The same item with no [input] at all. *)
Definition bash_item_no_input : json :=
  JDict [("type", JStr "tool_use"); ("name", JStr "Bash")].

Definition session (p : string) (size : N) (lines : list line) : gmap string file :=
  {[ p := mkFile size (Text lines) true ]}.

(** What the rules append when none of them raises: the warmup rule, the
    message-count rule, the command rule over [most_common(5)] and the size
    rule, in this order. *)
Definition rule_issues (st : stats) : list string :=
  (if 10 <? warmup_errors st then [warmup_issue (warmup_errors st)] else [])
  ++ (if 500 <? message_count st then [messages_issue (message_count st)] else [])
  ++ snd (command_warnings (most_common 5 (tool_calls st)))
  ++ (if negb (Qle_bool (size_kb st) 2000) then [size_issue (size_kb st)] else []).

(** A record carries at most one content item. *)
Definition single_item (ln : line) : Prop :=
  match ln with
  | Undecodable => True
  | Decoded msg => length (content_items msg) <= 1
  end.

(** A record adds at most one warmup error and at most one tool call,
    whatever else its content holds. *)
Definition counted_once (ln : line) : Prop :=
  line_warmups ln <= 1 /\ length (line_names ln) <= 1.

(** The lines [open] hands to the loop; none when it raises. *)
Definition file_lines (f : file) : list line :=
  match contents f with
  | Unreadable _ => []
  | Text lines => lines
  end.

(** The counters stay below the number of lines read. *)
Definition counts_bounded (st : stats) : Prop :=
  warmup_errors st <= message_count st
  /\ Forall (fun entry => snd entry <= message_count st) (tool_calls st).

(** A one-line file: a user record with two warmup-error items. *)
Definition two_warmups_session : gmap string file :=
  session "/s/a.jsonl" 400 [Decoded (user_record [warmup_item; warmup_item])].

(** A one-line file: an assistant record that calls the same tool twice. *)
Definition two_calls_session : gmap string file :=
  session "/s/b.jsonl" 400 [Decoded (assistant_record [bash_item "ls"; bash_item "ls"])].

(** A four-line file with one content item per record and one line that
    does not decode. *)
Definition mixed_file : file :=
  mkFile 700
    (Text [Decoded (user_record [warmup_item]); Undecodable;
           Decoded (assistant_record [bash_item "ls"]);
           Decoded (assistant_record [bash_item "ls"])]) true.

Definition mixed_session : gmap string file := {[ "/s/a.jsonl" := mixed_file ]}.

(** A record that no rule looks at. *)
Definition plain_record : json := JDict [("type", JStr "summary"); ("summary", JStr "notes")].

(** A user record whose [message] is a string: [.get] on it raises. *)
Definition str_message_record : json := JDict [("type", JStr "user"); ("message", JStr "hello")].

(** Every line is read without raising. *)
Definition read_ok (lines : list line) : Prop :=
  Forall (fun ln => line_result ln = Ok tt) lines.

(** An entry of the counter whose count is past the threshold of the
    command rule. *)
Definition repeated (entry : json * nat) : bool := 50 <? snd entry.

(** A file in which one command is run 51 times and another 50 times. *)
Definition repeated_file : file :=
  mkFile 40000
    (Text (repeat (Decoded (assistant_record [bash_item "npm test"])) 51
           ++ repeat (Decoded (assistant_record [bash_item "git status"])) 50)) true.

Definition repeated_session : gmap string file := {[ "/s/a.jsonl" := repeated_file ]}.

(** What the [try] block leaves of [repeated_file]. *)
Definition repeated_stats : stats :=
  mkStats "/s/a.jsonl" "a.jsonl" (40000 # 1024) 101 0
    [(JStr "npm test", 51); (JStr "git status", 50)] false [].

(** A file of 2049 KB with no line, a file of exactly 2000 KB, and two
    files of 3,000,000 bytes whose read fails: one that [open] refuses, one
    with a record on which the scan stops. *)
Definition large_session : gmap string file := session "/s/a.jsonl" (2049 * 1024) [].

Definition boundary_session : gmap string file := session "/s/a.jsonl" (2000 * 1024) [].

Definition denied_session : gmap string file :=
  {[ "/s/big.jsonl" :=
       mkFile 3000000 (Unreadable "[Errno 13] Permission denied: '/s/big.jsonl'") true ]}.

Definition broken_session : gmap string file :=
  session "/s/big.jsonl" 3000000 [Decoded plain_record; Decoded str_message_record].

(** ** Sample runs *)

(** A world whose base path exists and under which [rglob] finds [paths]. *)
Definition found (paths : list string) (fs : gmap string file) : world :=
  mkWorld (fun _ => true) (fun _ => paths) fs (fun _ => true).

(** A session in which one command, whose text holds the word CRITICAL, is
    run 51 times: its only issue is a WARNING. *)
Definition grep_file : file :=
  mkFile 30000 (Text (repeat (Decoded (assistant_record [bash_item "grep CRITICAL app.log"])) 51))
    true.

(** A session under a directory named CRITICAL that [open] refuses: its only
    issue is the read error, which quotes the path. *)
Definition denied_file : file :=
  mkFile 500 (Unreadable "[Errno 13] Permission denied: '/logs/CRITICAL/b.jsonl'") true.

Definition grep_world : world :=
  found ["/logs/a.jsonl"; "/logs/CRITICAL/b.jsonl"]
    (<["/logs/a.jsonl" := grep_file]> (<["/logs/CRITICAL/b.jsonl" := denied_file]> ∅)).

(** [rglob] found a path whose file is gone when it is analysed. *)
Definition vanished_world : world :=
  found ["/s/gone.jsonl"; "/s/a.jsonl"] large_session.

Definition large_world : world := found ["/s/a.jsonl"] large_session.

(** ** What a whole file contributes *)

Definition file_warmups (lines : list line) : nat :=
  fold_right (fun ln n => line_warmups ln + n) 0 lines.

Definition file_names (lines : list line) : list json :=
  flat_map line_names lines.

Definition file_sidechain (lines : list line) : bool :=
  existsb line_sidechain lines.

(** [c[k] += 1] for each name in turn. *)
Definition count_all (names : list json) (c : counter) : counter :=
  fold_left (fun c k => counter_incr k c) names c.

(** The sum of the counts of a counter. *)
Definition counter_total (c : counter) : nat :=
  fold_right (fun entry n => snd entry + n) 0 c.

(** No two entries of a counter have keys that Python finds equal. *)
Fixpoint keys_distinct (c : counter) : Prop :=
  match c with
  | [] => True
  | (k, _) :: c' => Forall (fun entry => key_eqb k (fst entry) = false) c' /\ keys_distinct c'
  end.

(** A three-line file whose second record stops the scan. *)
Definition stopped_lines : list line :=
  [Decoded (assistant_record [bash_item "ls"]); Decoded str_message_record;
   Decoded (user_record [warmup_item])].

(** The counter is well formed: counts of at least 1, hashable keys, no key
    twice. *)
Definition counter_ok (c : counter) : Prop :=
  Forall (fun entry => 1 <= snd entry) c
  /\ Forall (fun entry => hashable (fst entry) = true) c
  /\ keys_distinct c.


Definition is_messages_warning (i : string) : bool :=
  startswith i "WARNING: Excessive messages (".

(** A file with 11 warmup errors in one record, then 501 plain records. *)
Definition stuck_file : file :=
  mkFile 70000
    (Text (Decoded (user_record (repeat warmup_item 11)) :: repeat (Decoded plain_record) 501))
    true.

Definition stuck_session : gmap string file := {[ "/s/stuck.jsonl" := stuck_file ]}.

(** Every name that the assistant records of the file count is a string. *)
Definition string_names (f : file) : Prop :=
  Forall (fun ln => Forall (fun k => exists s, k = JStr s) (line_names ln)) (file_lines f).

Definition string_keys (c : counter) : Prop :=
  Forall (fun entry => exists s, fst entry = JStr s) c.

(** A world with a stuck session that can be removed, one that cannot, and
    a healthy one. *)
Definition locked_file : file :=
  mkFile 900 (Text [Decoded (user_record (repeat warmup_item 11))]) false.

Definition cleanup_world : world :=
  found ["/s/stuck.jsonl"; "/s/locked.jsonl"; "/s/a.jsonl"]
    (<["/s/stuck.jsonl" := stuck_file]>
       (<["/s/locked.jsonl" := locked_file]> (<["/s/a.jsonl" := mixed_file]> ∅))).

(** A user record with eight content items, three of which are warmup
    errors: [is_error] is [True], a non-empty string, a non-zero number.  The
    others miss by the case of a letter, a falsy or missing [is_error], a
    [content] that is no string, or by not being a mapping. *)
Definition warmup_probe_items : list json :=
  [warmup_item;
   JDict [("content", JStr "Warmup"); ("is_error", JStr "yes")];
   JDict [("content", JStr "warmup"); ("is_error", JBool true)];
   JDict [("content", JStr "Warmup"); ("is_error", JBool false)];
   JDict [("is_error", JInt 1); ("content", JStr "Warmup")];
   JDict [("content", JStr "Warmup")];
   JDict [("content", JList [JStr "Warmup"]); ("is_error", JBool true)];
   JStr "Warmup"].

(** An assistant record whose fourth tool-use item runs a list as command:
    the list cannot be hashed. *)
Definition list_command_item : json :=
  JDict [("type", JStr "tool_use"); ("name", JStr "Bash");
         ("input", JDict [("command", JList [JStr "ls"; JStr "-l"])])].

Definition list_command_record : json :=
  assistant_record
    [bash_item "ls"; bash_item_str_input; bash_item_no_input; list_command_item;
     bash_item "pwd"].

(** Every text that the listing and the cleanup phase print of a session
    can be written to [sys.stdout]: its name, its issues and its path, which
    the message of a failed removal quotes. *)
Definition printable (w : world) (st : stats) : Prop :=
  prints w (name st) = true
  /\ prints w (path st) = true
  /\ Forall (fun issue => prints w issue = true) (issues st).

(** A content item of type [text]. *)
Definition text_item (s : string) : json := JDict [("type", JStr "text"); ("text", JStr s)].

(** A file whose records hold a text next to the one item that is counted. *)
Definition ordinary_file : file :=
  mkFile 900
    (Text [Decoded (user_record [text_item "Hello"; warmup_item]); Undecodable;
           Decoded (assistant_record [text_item "Listing the files"; bash_item "ls"]);
           Decoded (assistant_record [text_item "Once more"; bash_item "ls"])]) true.

Definition ordinary_session : gmap string file := {[ "/s/a.jsonl" := ordinary_file ]}.

(** Two files in which one command is run 51 times and nothing else is
    counted: in the first the last line is a JSON list, on which the scan
    stops; in the second the command is the number 7. *)
Definition interrupted_file : file :=
  mkFile 30000
    (Text (repeat (Decoded (assistant_record [bash_item "npm test"])) 51
           ++ [Decoded (JList [])])) true.

Definition number_command_item : json :=
  JDict [("type", JStr "tool_use"); ("name", JStr "Bash");
         ("input", JDict [("command", JInt 7)])].

Definition number_command_file : file :=
  mkFile 30000 (Text (repeat (Decoded (assistant_record [number_command_item])) 51)) true.

(** Files with no line whose sizes lie half-way between two kilobytes:
    2000.5 KB and 2001.5 KB. *)
Definition tie_session (size : N) : gmap string file := session "/s/a.jsonl" size [].

(** A stuck session whose name holds a character outside ASCII, met on a
    terminal whose encoding has the ASCII characters only. *)
Definition cafe_path : string := "/s/caf" +:+ String "233" ".jsonl".

Definition ascii_terminal_world : world :=
  mkWorld (fun _ => true) (fun _ => [cafe_path]) {[ cafe_path := stuck_file ]} (fun _ => false).

(** * Properties *)

(** ** The monad *)

Lemma bind_eq {A B : Type} (m : M A) (k : A -> M B) (st : stats) :
  (m ≫= k) st =
  match m st with
  | (Ok a, st') => k a st'
  | (Raise e, st') => (Raise e, st')
  end.
Proof. reflexivity. Qed.

Lemma for_each_cons {A : Type} (body : A -> M unit) (x : A) (l : list A) (st : stats) :
  for_each body (x :: l) st =
  match body x st with
  | (Ok _, st') => for_each body l st'
  | (Raise e, st') => (Raise e, st')
  end.
Proof. reflexivity. Qed.

Lemma for_each_app {A : Type} (body : A -> M unit) (l1 l2 : list A) (st : stats) :
  for_each body (l1 ++ l2) st =
  match for_each body l1 st with
  | (Ok _, st') => for_each body l2 st'
  | (Raise e, st') => (Raise e, st')
  end.
Proof.
  revert st. induction l1 as [|x l1 IH]; intros st.
  - reflexivity.
  - simpl app. rewrite !for_each_cons.
    destruct (body x st) as [[[]|e] st']; [apply IH | reflexivity].
Qed.

(** ** The loops over the content items *)

Lemma check_warmup_eq (item : json) (st : stats) :
  check_warmup item st =
  (Ok tt, if is_warmup_error item then incr_warmup_errors st else st).
Proof.
  destruct item as [| | | | |?|d]; try reflexivity.
  unfold check_warmup, is_warmup_error, dict_get.
  destruct (dict_lookup "content" d) as [[]|]; simpl; try reflexivity;
    destruct (dict_lookup "is_error" d); simpl; try reflexivity;
    rewrite ?andb_false_r; try reflexivity.
  all: destruct (_ && _); reflexivity.
Qed.

Lemma for_each_check_warmup (items : list json) (st : stats) :
  for_each check_warmup items st =
  (Ok tt, with_counts (message_count st)
            (warmup_errors st + length (List.filter is_warmup_error items))
            (tool_calls st) (is_sidechain st) st).
Proof.
  revert st. induction items as [|item items IH]; intros st.
  - destruct st; unfold with_counts; simpl. unfold mret, M_ret. do 3 f_equal. lia.
  - rewrite for_each_cons, check_warmup_eq, IH. simpl List.filter.
    destruct (is_warmup_error item); destruct st; unfold with_counts; simpl;
      do 3 f_equal; lia.
Qed.

Lemma track_tool_call_eq (item : json) (st : stats) :
  track_tool_call item st =
  match tool_name item with
  | Some k => count_tool_call k st
  | None => (Ok tt, st)
  end.
Proof.
  destruct item as [| | | | |?|d]; try reflexivity.
  unfold track_tool_call, tool_name, name_or_unknown, dict_get.
  destruct (dict_lookup "type" d) as [[]|]; simpl; try reflexivity.
  destruct (String.eqb s "tool_use"); [|reflexivity].
  destruct (dict_lookup "input" d) as [[]|]; try reflexivity.
  destruct (dict_lookup "command" entries); reflexivity.
Qed.

Lemma for_each_track_tool_call (items : list json) (st : stats) :
  for_each track_tool_call items st =
  (names_result (omap tool_name items),
   with_counts (message_count st) (warmup_errors st)
     (count_names (omap tool_name items) (tool_calls st)) (is_sidechain st) st).
Proof.
  revert st. induction items as [|item items IH]; intros st.
  - destruct st; reflexivity.
  - rewrite for_each_cons, track_tool_call_eq. simpl omap.
    destruct (tool_name item) as [k|]; simpl.
    + unfold count_tool_call. destruct (hashable k) eqn:Hk; simpl.
      * unfold modify. rewrite IH. destruct st; reflexivity.
      * unfold lift. destruct st; reflexivity.
    + apply IH.
Qed.

(** ** One line *)

Lemma record_type_get (d : list (string * json)) :
  record_type (JDict d) = dict_get d "type" JNull.
Proof. reflexivity. Qed.

Lemma content_items_get (d : list (string * json)) :
  content_items (JDict d) =
  match dict_get d "message" (JDict []) with
  | JDict m =>
      match dict_get m "content" (JList []) with
      | JList items => items
      | _ => []
      end
  | _ => []
  end.
Proof.
  unfold content_items, dict_get.
  destruct (dict_lookup "message" d) as [[| | | | |?|m]|]; try reflexivity.
  destruct (dict_lookup "content" m) as [[]|]; reflexivity.
Qed.

Lemma line_sidechain_get (d : list (string * json)) :
  line_sidechain (Decoded (JDict d)) = truthy (dict_get d "isSidechain" JNull).
Proof.
  unfold line_sidechain, dict_get. destruct (dict_lookup "isSidechain" d); reflexivity.
Qed.

Lemma over_content_eq (d : list (string * json)) (body : json -> M unit) (st : stats) :
  over_content (JDict d) body st =
  match dict_get d "message" (JDict []) with
  | JDict _ => for_each body (content_items (JDict d)) st
  | v => (Raise (no_get v), st)
  end.
Proof.
  unfold over_content. rewrite content_items_get, bind_eq. unfold lift at 1. simpl py_get.
  destruct (dict_get d "message" (JDict [])) as [| | | | |?|m]; try reflexivity.
  rewrite bind_eq. unfold lift. simpl py_get.
  destruct (dict_get m "content" (JList [])); reflexivity.
Qed.

Lemma str_is_user_assistant (v : json) :
  str_is v "user" = true -> str_is v "assistant" = false.
Proof.
  destruct v; simpl; try discriminate.
  intros H%String.eqb_eq. subst. reflexivity.
Qed.

Lemma bind_lift_ok {A B : Type} (a : A) (k : A -> M B) (st : stats) :
  (lift (Ok a) ≫= k) st = k a st.
Proof. reflexivity. Qed.

Lemma bind_modify {B : Type} (f : stats -> stats) (k : unit -> M B) (st : stats) :
  (modify f ≫= k) st = k tt (f st).
Proof. reflexivity. Qed.

Lemma bind_ret {A B : Type} (a : A) (k : A -> M B) (st : stats) :
  (mret a ≫= k) st = k a st.
Proof. reflexivity. Qed.

Lemma bind_if {B : Type} (c : bool) (m1 m2 : M unit) (k : unit -> M B) (st : stats) :
  ((if c then m1 else m2) ≫= k) st = if c then (m1 ≫= k) st else (m2 ≫= k) st.
Proof. destruct c; reflexivity. Qed.

(** The scan of a line is its reading: the result and every counter it
    leaves are those of the record, whatever the statistics held before. *)
Lemma scan_line_denotes (ln : line) (st : stats) :
  scan_line ln st =
  (line_result ln,
   with_counts (S (message_count st))
     (warmup_errors st + line_warmups ln)
     (count_names (line_names ln) (tool_calls st))
     (is_sidechain st || line_sidechain ln) st).
Proof.
  destruct ln as [|msg].
  - destruct st; unfold with_counts; simpl. unfold scan_line, incr_message_count.
    unfold mbind, M_bind, mret, M_ret, modify. simpl.
    rewrite Nat.add_0_r, orb_false_r. reflexivity.
  - unfold scan_line. rewrite bind_modify.
    destruct msg as [| | | | |?|d];
      try (destruct st; unfold with_counts; simpl;
           rewrite Nat.add_0_r, orb_false_r; reflexivity).
    unfold scan_record. simpl py_get. rewrite bind_lift_ok.
    set (sc := truthy (dict_get d "isSidechain" JNull)).
    set (st2 := with_counts (S (message_count st)) (warmup_errors st)
                  (tool_calls st) (is_sidechain st || sc) st).
    assert (Hst2 : forall B (k : unit -> M B),
              ((if sc then modify set_sidechain else mret tt) ≫= k)
                (incr_message_count st) = k tt st2).
    { intros B k. rewrite bind_if. subst st2.
      destruct sc; [rewrite bind_modify | rewrite bind_ret]; f_equal;
        destruct st; unfold with_counts; simpl;
        rewrite ?orb_true_r, ?orb_false_r; reflexivity. }
    rewrite Hst2, bind_lift_ok.
    rewrite line_sidechain_get.
    unfold line_result, line_warmups, line_names, message_result.
    change (record_type (JDict d)) with (dict_get d "type" JNull).
    fold sc.
    destruct (str_is (dict_get d "type" JNull) "user") eqn:Hu.
    + rewrite (str_is_user_assistant _ Hu).
      rewrite bind_eq, over_content_eq.
      destruct (dict_get d "message" (JDict [])) eqn:Hm;
        try (rewrite content_items_get, Hm;
             destruct st; unfold with_counts; simpl; rewrite Nat.add_0_r; reflexivity).
      rewrite for_each_check_warmup, bind_lift_ok.
      rewrite (str_is_user_assistant _ Hu).
      unfold mret, M_ret. destruct st; reflexivity.
    + rewrite bind_ret, bind_lift_ok.
      destruct (str_is (dict_get d "type" JNull) "assistant") eqn:Ha.
      * rewrite over_content_eq.
        destruct (dict_get d "message" (JDict [])) eqn:Hm;
          try (rewrite content_items_get, Hm;
               destruct st; unfold with_counts; simpl; rewrite Nat.add_0_r; reflexivity).
        rewrite for_each_track_tool_call.
        destruct st; unfold with_counts; simpl. rewrite Nat.add_0_r. reflexivity.
      * unfold mret, M_ret. destruct st; unfold with_counts; simpl.
        rewrite Nat.add_0_r. reflexivity.
Qed.

Lemma scan_line_bump (ln : line) (st : stats) :
  scan_line ln (incr_message_count st) =
  (fst (scan_line ln st), incr_message_count (snd (scan_line ln st))).
Proof. rewrite !scan_line_denotes. reflexivity. Qed.

(** ** Warmup errors *)

Lemma is_warmup_error_iff (item : json) :
  is_warmup_error item = true <->
  exists d e, item = JDict d /\ dict_lookup "content" d = Some (JStr "Warmup")
              /\ dict_lookup "is_error" d = Some e /\ truthy e = true.
Proof.
  split.
  - destruct item as [| | | | |?|d]; simpl; try discriminate.
    destruct (dict_lookup "content" d) as [[]|] eqn:Hc; try discriminate.
    destruct (dict_lookup "is_error" d) as [e|] eqn:He; try discriminate.
    intros [E T]%andb_true_iff. apply String.eqb_eq in E. subst.
    exists d, e. auto.
  - intros (d & e & -> & Hc & He & T). simpl. rewrite Hc, He, T. reflexivity.
Qed.

Lemma record_type_is (msg : json) (t : string) :
  str_is (record_type msg) t = true <->
  exists d, msg = JDict d /\ dict_lookup "type" d = Some (JStr t).
Proof.
  split.
  - destruct msg as [| | | | |?|d]; simpl; try discriminate.
    destruct (dict_lookup "type" d) as [[]|] eqn:E; simpl; try discriminate.
    intros H%String.eqb_eq. subst. eauto.
  - intros (d & -> & E). simpl. rewrite E. simpl. apply String.eqb_refl.
Qed.

Lemma content_items_In (msg item : json) :
  In item (content_items msg) ->
  exists d m items, msg = JDict d /\ dict_lookup "message" d = Some (JDict m)
                    /\ dict_lookup "content" m = Some (JList items) /\ In item items.
Proof.
  destruct msg as [| | | | |?|d]; simpl; try tauto.
  destruct (dict_lookup "message" d) as [[| | | | |?|m]|] eqn:Hm; simpl; try tauto.
  destruct (dict_lookup "content" m) as [[| | | | |items|?]|] eqn:Hc; simpl; try tauto.
  intros H. exists d, m, items. auto.
Qed.

(** C10. Scanning a record adds to the warmup-error count the number of
    content items that match, once per item.  The record must be a mapping
    whose [type] is exactly the string "user"; its content items are the
    elements of the list under [content] of the mapping under [message],
    and there are none when either is missing or of another kind.  An item
    matches when it is a mapping whose [content] is exactly the string
    "Warmup" and whose [is_error] is present and truthy: [True], a non-zero
    number, a non-empty string, list or mapping, but not [False], [None],
    zero or an empty one.  Records of any other type add nothing. *)
Theorem warmup_errors_once_per_item (msg : json) (st : stats) :
  warmup_errors (snd (scan_line (Decoded msg) st)) =
    warmup_errors st +
    (if str_is (record_type msg) "user"
     then length (List.filter is_warmup_error (content_items msg)) else 0)
  /\ (forall item, is_warmup_error item = true <->
        exists d e, item = JDict d /\ dict_lookup "content" d = Some (JStr "Warmup")
                    /\ dict_lookup "is_error" d = Some e /\ truthy e = true)
  /\ (str_is (record_type msg) "user" = true <->
        exists d, msg = JDict d /\ dict_lookup "type" d = Some (JStr "user"))
  /\ (forall d m items,
        msg = JDict d -> dict_lookup "message" d = Some (JDict m) ->
        dict_lookup "content" m = Some (JList items) -> content_items msg = items)
  /\ (forall item, In item (content_items msg) ->
        exists d m items, msg = JDict d /\ dict_lookup "message" d = Some (JDict m)
                          /\ dict_lookup "content" m = Some (JList items) /\ In item items)
  /\ truthy JNull = false
  /\ (forall b, truthy (JBool b) = b)
  /\ (forall z, truthy (JInt z) = negb (z =? 0)%Z)
  /\ truthy (JFloat FNan) = true
  /\ (forall negative, truthy (JFloat (FInf negative)) = true)
  /\ (forall q, truthy (JFloat (FFinite q)) = negb (Qeq_bool q 0))
  /\ truthy (JStr "") = false
  /\ (forall c s, truthy (JStr (String c s)) = true)
  /\ truthy (JList []) = false
  /\ (forall x l, truthy (JList (x :: l)) = true)
  /\ truthy (JDict []) = false
  /\ (forall e d, truthy (JDict (e :: d)) = true).
Proof.
  split; [|split; [|split; [|split; [|split]]]].
  - rewrite scan_line_denotes. reflexivity.
  - apply is_warmup_error_iff.
  - apply record_type_is.
  - intros d m items -> Hm Hc. simpl. rewrite Hm, Hc. reflexivity.
  - intros item. apply content_items_In.
  - repeat split.
Qed.

(** On the probe, three of the eight items count in a user record, none of
    them in an assistant record, and the record found under a key other
    than [type] is no user record. *)
Lemma warmup_errors_once_per_item_witness :
  warmup_errors (snd (scan_line (Decoded (user_record warmup_probe_items))
                        (initial_stats "/s/a.jsonl" (mkFile 900 (Text []) true)))) = 3
  /\ warmup_errors (snd (scan_line (Decoded (assistant_record warmup_probe_items))
                        (initial_stats "/s/a.jsonl" (mkFile 900 (Text []) true)))) = 0
  /\ warmup_errors (snd (scan_line
        (Decoded (JDict [("role", JStr "user");
                         ("message", JDict [("content", JList warmup_probe_items)])]))
        (initial_stats "/s/a.jsonl" (mkFile 900 (Text []) true)))) = 0
  /\ warmup_errors (snd (scan_line
        (Decoded (JDict [("type", JStr "user"); ("content", JList warmup_probe_items)]))
        (initial_stats "/s/a.jsonl" (mkFile 900 (Text []) true)))) = 0.
Proof.
  split; [|split; [|split]]; exact (proj1 (warmup_errors_once_per_item _ _)).
Defined.

(** A record with [k] matching items adds [k]. *)
Lemma warmup_errors_k_items (k : nat) (st : stats) :
  warmup_errors (snd (scan_line (Decoded (user_record (repeat warmup_item k))) st)) =
  warmup_errors st + k.
Proof.
  rewrite scan_line_denotes. simpl. f_equal.
  induction k as [|k IH]; simpl; [reflexivity | f_equal; exact IH].
Qed.

(** ** Tool calls *)

Lemma count_names_hashable (names : list json) (c : counter) :
  Forall (fun k => hashable k = true) names ->
  count_names names c = fold_left (fun c k => counter_incr k c) names c.
Proof.
  intros H. revert c. induction H as [|k names Hk _ IH]; intros c; simpl.
  - reflexivity.
  - rewrite Hk. apply IH.
Qed.

Lemma count_names_stops (names : list json) (k : json) (rest : list json) (c : counter) :
  Forall (fun k => hashable k = true) names -> hashable k = false ->
  count_names (names ++ k :: rest) c = fold_left (fun c k => counter_incr k c) names c.
Proof.
  intros H Hk. revert c. induction H as [|k0 names Hk0 _ IH]; intros c; simpl.
  - rewrite Hk. reflexivity.
  - rewrite Hk0. apply IH.
Qed.

Lemma names_result_stops (names : list json) (k : json) (rest : list json) :
  Forall (fun k => hashable k = true) names -> hashable k = false ->
  names_result (names ++ k :: rest) = Raise (unhashable k).
Proof.
  intros H Hk. induction H as [|k0 names Hk0 _ IH]; simpl.
  - rewrite Hk. reflexivity.
  - rewrite Hk0. exact IH.
Qed.

Lemma hashable_false_iff (v : json) :
  hashable v = false <-> (exists l, v = JList l) \/ (exists d, v = JDict d).
Proof.
  split.
  - destruct v; simpl; try discriminate; eauto.
  - intros [[l ->]|[d ->]]; reflexivity.
Qed.

(** C5, as the code has it. Scanning an assistant record goes through its
    content items in order; an item of type "tool_use" is counted once, under
    the [command] of its [input] if that is a mapping holding one, else under
    its [name], else under "unknown"; a missing [input] reads as an empty
    mapping, but an [input] that is present and not a mapping leaves the item
    uncounted.  A name that is a list or a mapping cannot be a key of the
    counter: the item is not counted, [TypeError] is raised, and the items
    after it are not counted either.  Records of any other type leave the
    counter as it was. *)
Theorem tool_calls_per_record (msg : json) (st : stats) :
  tool_calls (snd (scan_line (Decoded msg) st)) =
    (if str_is (record_type msg) "assistant"
     then count_names (omap tool_name (content_items msg)) (tool_calls st)
     else tool_calls st)
  /\ (forall names c,
        Forall (fun k => hashable k = true) names ->
        count_names names c = fold_left (fun c k => counter_incr k c) names c)
  /\ (forall names k rest c,
        Forall (fun k => hashable k = true) names -> hashable k = false ->
        count_names (names ++ k :: rest) c = fold_left (fun c k => counter_incr k c) names c)
  /\ (forall names k rest,
        str_is (record_type msg) "assistant" = true ->
        omap tool_name (content_items msg) = names ++ k :: rest ->
        Forall (fun k => hashable k = true) names -> hashable k = false ->
        fst (scan_line (Decoded msg) st) = Raise (unhashable k))
  /\ (forall v, hashable v = false <-> (exists l, v = JList l) \/ (exists d, v = JDict d))
  /\ (forall d, dict_lookup "type" d = Some (JStr "tool_use") ->
        (forall tool_input c,
            dict_lookup "input" d = Some (JDict tool_input) ->
            dict_lookup "command" tool_input = Some c ->
            tool_name (JDict d) = Some c)
        /\ (forall tool_input,
            dict_lookup "input" d = Some (JDict tool_input) ->
            dict_lookup "command" tool_input = None ->
            tool_name (JDict d) = Some (name_or_unknown d))
        /\ (dict_lookup "input" d = None ->
            tool_name (JDict d) = Some (name_or_unknown d))
        /\ (forall v, dict_lookup "input" d = Some v ->
            (forall tool_input, v = JDict tool_input -> False) ->
            tool_name (JDict d) = None))
  /\ (forall d ty, dict_lookup "type" d = Some ty -> str_is ty "tool_use" = false ->
        tool_name (JDict d) = None)
  /\ (forall d, dict_lookup "type" d = None -> tool_name (JDict d) = None).
Proof.
  split; [|split; [|split; [|split; [|split; [|split; [|split]]]]]].
  - rewrite scan_line_denotes. simpl. unfold line_names.
    destruct (str_is (record_type msg) "assistant"); reflexivity.
  - apply count_names_hashable.
  - apply count_names_stops.
  - intros names k rest Ha Hn Hnames Hk. rewrite scan_line_denotes. simpl.
    destruct msg as [| | | | |?|d]; try discriminate.
    assert (Hu : str_is (dict_get d "type" JNull) "user" = false).
    { destruct (str_is (dict_get d "type" JNull) "user") eqn:Hu; [|reflexivity].
      apply str_is_user_assistant in Hu. rewrite record_type_get in Ha. congruence. }
    rewrite Hu. rewrite record_type_get in Ha. rewrite Ha.
    unfold line_names. rewrite record_type_get, Ha, Hn.
    unfold message_result. rewrite content_items_get in Hn.
    destruct (dict_get d "message" (JDict [])); try (destruct names; discriminate).
    apply names_result_stops; assumption.
  - apply hashable_false_iff.
  - intros d Ht. unfold tool_name. rewrite Ht. simpl.
    repeat split.
    + intros ti c -> ->. reflexivity.
    + intros ti -> ->. reflexivity.
    + intros ->. reflexivity.
    + intros v -> Hv. destruct v; try reflexivity. destruct (Hv _ eq_refl).
  - intros d ty Ht Hs. unfold tool_name. rewrite Ht.
    destruct ty; try reflexivity. simpl in Hs. rewrite Hs. reflexivity.
  - intros d Ht. unfold tool_name. rewrite Ht. reflexivity.
Qed.

(** On a record with five tool-use items, the fourth of which runs a list
    as command: the first and the third are counted, the second (its [input]
    is a string) is not, the fourth raises and the fifth is never reached. *)
Lemma tool_calls_per_record_witness :
  tool_calls (snd (scan_line (Decoded list_command_record)
                     (initial_stats "/s/a.jsonl" (mkFile 300 (Text []) true)))) =
    [(JStr "ls", 1); (JStr "Bash", 1)]
  /\ fst (scan_line (Decoded list_command_record)
            (initial_stats "/s/a.jsonl" (mkFile 300 (Text []) true))) =
     Raise (TypeError "unhashable type: 'list'").
Proof.
  split.
  - exact (proj1 (tool_calls_per_record list_command_record
             (initial_stats "/s/a.jsonl" (mkFile 300 (Text []) true)))).
  - apply (proj1 (proj2 (proj2 (proj2 (tool_calls_per_record list_command_record
             (initial_stats "/s/a.jsonl" (mkFile 300 (Text []) true))))))
             [JStr "ls"; JStr "Bash"] (JList [JStr "ls"; JStr "-l"]) [JStr "pwd"]).
    + reflexivity.
    + reflexivity.
    + repeat constructor.
    + reflexivity.
Defined.

(** C5 as stated fails: an item whose [input] is a string is not counted
    under its [name]; the same item with no [input] is. *)
Lemma wrong_typed_input_not_counted :
  analyze_session
    (session "/s/a.jsonl" 300 [Decoded (assistant_record [bash_item_str_input])])
    "/s/a.jsonl"
  = Ok (mkStats "/s/a.jsonl" "a.jsonl" (300 # 1024) 1 0 [] false [])
  /\ analyze_session
    (session "/s/a.jsonl" 300 [Decoded (assistant_record [bash_item_no_input])])
    "/s/a.jsonl"
  = Ok (mkStats "/s/a.jsonl" "a.jsonl" (300 # 1024) 1 0 [(JStr "Bash", 1)] false []).
Proof. split; vm_compute; reflexivity. Qed.

(** ** The rules *)

Lemma add_issues_nil (st : stats) : add_issues [] st = st.
Proof. destruct st; unfold add_issues; simpl. rewrite app_nil_r. reflexivity. Qed.

Lemma add_issues_app (l1 l2 : list string) (st : stats) :
  add_issues l2 (add_issues l1 st) = add_issues (l1 ++ l2) st.
Proof. unfold add_issues; simpl. rewrite app_assoc. reflexivity. Qed.

Lemma append_issue_add (i : string) (st : stats) : append_issue i st = add_issues [i] st.
Proof. reflexivity. Qed.

Lemma for_each_check_command (l : list (json * nat)) (st : stats) :
  for_each check_command l st =
  (fst (command_warnings l), add_issues (snd (command_warnings l)) st).
Proof.
  revert st. induction l as [|[cmd count] l IH]; intros st.
  - simpl. rewrite add_issues_nil. reflexivity.
  - rewrite for_each_cons. simpl.
    destruct (50 <? count).
    + destruct cmd; try (unfold lift; simpl; rewrite add_issues_nil; reflexivity).
      unfold modify. rewrite IH. simpl. rewrite append_issue_add, add_issues_app.
      reflexivity.
    + unfold mret, M_ret. apply IH.
Qed.

Lemma cond_issue (c : bool) (i : string) (st : stats) :
  (if c then modify (append_issue i) else mret tt) st
  = (Ok tt, add_issues (if c then [i] else []) st).
Proof. destruct c; [reflexivity|]. rewrite add_issues_nil. reflexivity. Qed.

Lemma detect_issues_eq (st : stats) :
  detect_issues st =
  match fst (command_warnings (most_common 5 (tool_calls st))) with
  | Ok _ => (Ok tt, add_issues (rule_issues st) st)
  | Raise e =>
      (Raise e,
       add_issues
         ((if 10 <? warmup_errors st then [warmup_issue (warmup_errors st)] else [])
          ++ (if 500 <? message_count st then [messages_issue (message_count st)] else [])
          ++ snd (command_warnings (most_common 5 (tool_calls st)))) st)
  end.
Proof.
  unfold detect_issues, rule_issues. rewrite bind_eq. unfold read.
  rewrite bind_eq, cond_issue. rewrite bind_eq, cond_issue, add_issues_app.
  rewrite bind_eq, for_each_check_command, add_issues_app.
  simpl tool_calls.
  destruct (fst (command_warnings (most_common 5 (tool_calls st)))) as [[]|e].
  - rewrite cond_issue, add_issues_app. simpl size_kb.
    rewrite <- !app_assoc. reflexivity.
  - rewrite <- !app_assoc. reflexivity.
Qed.

(** [analyze_session] on a path that has a file. *)
Lemma analyze_session_eq (fs : gmap string file) (p : string) (f : file) :
  fs !! p = Some f ->
  analyze_session fs p =
  match read_file f (initial_stats p f) with
  | (Raise e, st) => Ok (append_issue (read_error_issue (str_of_exn e)) st)
  | (Ok _, st) =>
      match fst (command_warnings (most_common 5 (tool_calls st))) with
      | Ok _ => Ok (add_issues (rule_issues st) st)
      | Raise e => Raise e
      end
  end.
Proof.
  intros Hf. unfold analyze_session. rewrite Hf.
  destruct (read_file f (initial_stats p f)) as [[[]|e] st]; [|reflexivity].
  rewrite detect_issues_eq.
  destruct (fst (command_warnings (most_common 5 (tool_calls st)))) as [[]|e]; reflexivity.
Qed.

(** The statistics [analyze_session] returns keep the counters the [try]
    block left: the handler and the rules only append issues. *)
Lemma analyze_session_counters (fs : gmap string file) (p : string) (f : file) (st : stats) :
  fs !! p = Some f ->
  analyze_session fs p = Ok st ->
  exists l, st = add_issues l (snd (read_file f (initial_stats p f))).
Proof.
  intros Hf. rewrite (analyze_session_eq _ _ _ Hf).
  destruct (read_file f (initial_stats p f)) as [[[]|e] st1]; simpl.
  - destruct (fst (command_warnings _)); [|discriminate].
    intros [= <-]. eauto.
  - intros [= <-]. eexists. apply append_issue_add.
Qed.

(** ** Loops and invariants *)

Section ForEachInvariant.
Context {A : Type} (body : A -> M unit) (I : stats -> Prop) (ok : A -> Prop).
Hypothesis body_keeps : forall x st, ok x -> I st -> I (snd (body x st)).

Lemma for_each_keeps (l : list A) (st : stats) :
  Forall ok l -> I st -> I (snd (for_each body l st)).
Proof.
  intros Hl. revert st. induction Hl as [|x l Hx _ IH]; intros st Hst.
  - exact Hst.
  - rewrite for_each_cons. specialize (body_keeps x st Hx Hst).
    destruct (body x st) as [[[]|e] st']; simpl in *.
    + apply IH, body_keeps.
    + exact body_keeps.
Qed.
End ForEachInvariant.

Lemma counter_incr_bounded (k : json) (c : counter) (m : nat) :
  Forall (fun entry => snd entry <= m) c ->
  Forall (fun entry => snd entry <= S m) (counter_incr k c).
Proof.
  induction 1 as [|[k' n] c Hn Hc IH]; simpl in *.
  - constructor; [simpl; lia | constructor].
  - destruct (key_eqb k' k).
    + constructor; [simpl; lia|]. eapply List.Forall_impl; [|exact Hc].
      intros [? ?]; simpl; lia.
    + constructor; [simpl; lia | exact IH].
Qed.

Lemma omap_length_le {A B : Type} (f : A -> option B) (l : list A) :
  length (omap f l) <= length l.
Proof.
  induction l as [|x l IH]; [simpl; lia|].
  change (omap f (x :: l))
    with (match f x with Some y => y :: omap f l | None => omap f l end).
  destruct (f x); simpl; lia.
Qed.

Lemma line_warmups_le (ln : line) : single_item ln -> line_warmups ln <= 1.
Proof.
  destruct ln as [|msg]; simpl; [lia|]. intros H.
  destruct (str_is (record_type msg) "user"); [|lia].
  pose proof (List.filter_length_le is_warmup_error (content_items msg)). lia.
Qed.

Lemma line_names_le (ln : line) : single_item ln -> length (line_names ln) <= 1.
Proof.
  destruct ln as [|msg]; simpl; [lia|]. intros H.
  destruct (str_is (record_type msg) "assistant"); [|simpl; lia].
  pose proof (omap_length_le tool_name (content_items msg)). lia.
Qed.

(** A record with one content item at most is counted once at most. *)
Lemma single_item_counted_once (ln : line) : single_item ln -> counted_once ln.
Proof. intros H. split; [apply line_warmups_le | apply line_names_le]; exact H. Qed.

Lemma scan_line_bounded (ln : line) (st : stats) :
  counted_once ln -> counts_bounded st -> counts_bounded (snd (scan_line ln st)).
Proof.
  intros [Hlw Hn] [Hw Ht]. rewrite scan_line_denotes. unfold counts_bounded. simpl.
  split; [lia|].
  assert (Ht' : Forall (fun entry => snd entry <= S (message_count st)) (tool_calls st)).
  { eapply List.Forall_impl; [|exact Ht]. intros [? ?]; simpl; lia. }
  destruct (line_names ln) as [|k [|k' names]]; simpl in *; try lia.
  - exact Ht'.
  - destruct (hashable k); [|exact Ht']. apply counter_incr_bounded, Ht.
Qed.

Lemma read_file_bounded (f : file) (st : stats) :
  Forall counted_once (file_lines f) -> counts_bounded st ->
  counts_bounded (snd (read_file f st)).
Proof.
  unfold read_file, file_lines. destruct (contents f) as [err|lines]; intros Hl Hst.
  - exact Hst.
  - apply for_each_keeps with (ok := counted_once); auto using scan_line_bounded.
Qed.

(** C3, as the code has it. For a session file in which every record adds
    at most one warmup error and at most one tool call (it may hold any
    number of other content items), the statistics satisfy: the total record
    count is at least the warmup-error count and at least the count of every
    tool-name entry. *)
Theorem counts_bounded_by_message_count
    (fs : gmap string file) (p : string) (f : file) (st : stats) :
  fs !! p = Some f ->
  Forall counted_once (file_lines f) ->
  analyze_session fs p = Ok st ->
  warmup_errors st <= message_count st
  /\ forall cmd count, In (cmd, count) (tool_calls st) -> count <= message_count st.
Proof.
  intros Hf Hl Ha.
  destruct (analyze_session_counters _ _ _ _ Hf Ha) as [l ->].
  assert (H0 : counts_bounded (initial_stats p f)) by (split; [simpl; lia | constructor]).
  destruct (read_file_bounded f _ Hl H0) as [Hw Ht].
  split; [exact Hw|]. intros cmd count Hin. simpl in Hin.
  rewrite List.Forall_forall in Ht. exact (Ht _ Hin).
Qed.

Lemma counts_bounded_by_message_count_witness :
  ordinary_session !! "/s/a.jsonl" = Some ordinary_file
  /\ Forall counted_once (file_lines ordinary_file)
  /\ analyze_session ordinary_session "/s/a.jsonl"
     = Ok (mkStats "/s/a.jsonl" "a.jsonl" (900 # 1024) 4 1 [(JStr "ls", 2)] false [])
  /\ 1 <= 4
  /\ forall cmd count, In (cmd, count) [(JStr "ls", 2)] -> count <= 4.
Proof.
  assert (Hf : ordinary_session !! "/s/a.jsonl" = Some ordinary_file) by reflexivity.
  assert (Hl : Forall counted_once (file_lines ordinary_file)).
  { repeat (constructor; [split; vm_compute; lia|]). constructor. }
  assert (Ha : analyze_session ordinary_session "/s/a.jsonl"
     = Ok (mkStats "/s/a.jsonl" "a.jsonl" (900 # 1024) 4 1 [(JStr "ls", 2)] false []))
    by (vm_compute; reflexivity).
  split; [exact Hf|]. split; [exact Hl|]. split; [exact Ha|].
  exact (counts_bounded_by_message_count _ _ _ _ Hf Hl Ha).
Defined.

(** C3 as stated fails: one record with two matching items leaves a
    warmup-error count of 2 against a record count of 1, and one record
    with two calls of a tool leaves that tool a count of 2. *)
Lemma counts_exceed_message_count :
  analyze_session two_warmups_session "/s/a.jsonl"
  = Ok (mkStats "/s/a.jsonl" "a.jsonl" (400 # 1024) 1 2 [] false [])
  /\ analyze_session two_calls_session "/s/b.jsonl"
  = Ok (mkStats "/s/b.jsonl" "b.jsonl" (400 # 1024) 1 0 [(JStr "ls", 2)] false []).
Proof. split; vm_compute; reflexivity. Qed.

(** ** Lines that do not decode *)

Lemma for_each_scan_bump (lines : list line) (st : stats) :
  for_each scan_line lines (incr_message_count st) =
  (fst (for_each scan_line lines st), incr_message_count (snd (for_each scan_line lines st))).
Proof.
  revert st. induction lines as [|ln lines IH]; intros st.
  - reflexivity.
  - rewrite !for_each_cons, scan_line_bump.
    destruct (scan_line ln st) as [[[]|e] st']; simpl; [apply IH | reflexivity].
Qed.

Lemma for_each_scan_ok (lines : list line) (st : stats) :
  read_ok lines -> fst (for_each scan_line lines st) = Ok tt.
Proof.
  intros H. revert st. induction H as [|ln lines Hln _ IH]; intros st.
  - reflexivity.
  - simpl in Hln. rewrite for_each_cons, scan_line_denotes, Hln. apply IH.
Qed.

Lemma scan_with_undecodable (pre post : list line) (st : stats) :
  read_ok pre ->
  for_each scan_line (pre ++ Undecodable :: post) st =
  (fst (for_each scan_line (pre ++ post) st),
   incr_message_count (snd (for_each scan_line (pre ++ post) st))).
Proof.
  intros Hpre. rewrite !for_each_app.
  pose proof (for_each_scan_ok pre st Hpre) as Hok.
  destruct (for_each scan_line pre st) as [[[]|e] st1]; simpl in Hok; [|discriminate].
  rewrite for_each_cons.
  change (scan_line Undecodable st1) with (Ok tt, incr_message_count st1).
  apply for_each_scan_bump.
Qed.

Lemma rule_issues_bump (st : stats) :
  S (message_count st) <= 500 ->
  rule_issues (incr_message_count st) = rule_issues st.
Proof.
  intros H. unfold rule_issues. simpl.
  assert (E1 : (500 <? S (message_count st)) = false) by (apply Nat.ltb_ge; lia).
  assert (E2 : (500 <? message_count st) = false) by (apply Nat.ltb_ge; lia).
  rewrite E1, E2. reflexivity.
Qed.

Lemma for_each_scan_frame (lines : list line) (st : stats) :
  path (snd (for_each scan_line lines st)) = path st
  /\ name (snd (for_each scan_line lines st)) = name st
  /\ size_kb (snd (for_each scan_line lines st)) = size_kb st
  /\ issues (snd (for_each scan_line lines st)) = issues st.
Proof.
  revert st. induction lines as [|ln lines IH]; intros st.
  - auto.
  - rewrite for_each_cons, scan_line_denotes.
    destruct (line_result ln) as [[]|e]; [|auto].
    destruct (IH (with_counts (S (message_count st)) (warmup_errors st + line_warmups ln)
                    (count_names (line_names ln) (tool_calls st))
                    (is_sidechain st || line_sidechain ln) st)) as (? & ? & ? & ?).
    auto.
Qed.

Lemma read_file_frame (f : file) (st : stats) :
  path (snd (read_file f st)) = path st
  /\ name (snd (read_file f st)) = name st
  /\ size_kb (snd (read_file f st)) = size_kb st
  /\ issues (snd (read_file f st)) = issues st.
Proof.
  unfold read_file. destruct (contents f); [auto | apply for_each_scan_frame].
Qed.

(** [size_kb > 2000] compares the byte size with 2000 * 1024. *)
Lemma size_rule (n : N) :
  negb (Qle_bool (Z.of_N n # 1024) 2000) = (2000 * 1024 <? n)%N.
Proof.
  unfold Qle_bool. simpl Qnum. simpl Qden.
  destruct (N.ltb_spec (2000 * 1024) n), (Z.leb_spec (Z.of_N n * 1) (2000 * 1024)%Z);
    simpl; try reflexivity; lia.
Qed.

Lemma for_each_scan_resize (lines : list line) (kb : Q) (st : stats) :
  for_each scan_line lines (with_size kb st) =
  (fst (for_each scan_line lines st), with_size kb (snd (for_each scan_line lines st))).
Proof.
  revert st. induction lines as [|ln lines IH]; intros st.
  - reflexivity.
  - rewrite !for_each_cons, !scan_line_denotes.
    destruct (line_result ln) as [[]|e]; [|reflexivity].
    exact (IH (with_counts (S (message_count st)) (warmup_errors st + line_warmups ln)
                 (count_names (line_names ln) (tool_calls st))
                 (is_sidechain st || line_sidechain ln) st)).
Qed.

Lemma size_rule_quiet (st : stats) (n : N) :
  size_kb st = (Z.of_N n # 1024) -> (n <= 2000 * 1024)%N ->
  rule_issues st =
  (if 10 <? warmup_errors st then [warmup_issue (warmup_errors st)] else [])
  ++ (if 500 <? message_count st then [messages_issue (message_count st)] else [])
  ++ snd (command_warnings (most_common 5 (tool_calls st))).
Proof.
  intros Hkb Hle. unfold rule_issues. rewrite Hkb, size_rule.
  apply N.ltb_ge in Hle. rewrite Hle, !app_nil_r. reflexivity.
Qed.

(** C6, as the code has it. A line that does not decode and that the scan
    reaches (no line before it raises) adds one to the total record count
    and nothing to any other counter.  The file without the line is smaller;
    its analysis ends the same way, with the same warmup-error count, tool
    counts, sidechain flag, path and name, a record count one lower, and
    each file with its own size.  The issues are the same as well when the
    count with the line does not exceed 500 and the file with the line does
    not exceed 2000 KB, so that neither the message-count rule nor the size
    rule tells the two files apart. *)
Theorem undecodable_line_counts_once
    (fs : gmap string file) (p : string) (size size' : N) (rm rm' : bool)
    (pre post : list line) :
  read_ok pre ->
  (size' <= size)%N ->
  match analyze_session (<[p := mkFile size (Text (pre ++ Undecodable :: post)) rm]> fs) p,
        analyze_session (<[p := mkFile size' (Text (pre ++ post)) rm']> fs) p with
  | Ok st, Ok st' =>
      message_count st = S (message_count st')
      /\ warmup_errors st = warmup_errors st'
      /\ tool_calls st = tool_calls st'
      /\ is_sidechain st = is_sidechain st'
      /\ path st = path st' /\ name st = name st'
      /\ size_kb st = (Z.of_N size # 1024) /\ size_kb st' = (Z.of_N size' # 1024)
      /\ (message_count st <= 500 -> (size <= 2000 * 1024)%N -> issues st = issues st')
  | Raise e, Raise e' => e = e'
  | _, _ => False
  end.
Proof.
  intros Hpre Hsize.
  rewrite (analyze_session_eq _ p _ (lookup_insert_eq _ _ _)).
  rewrite (analyze_session_eq _ p _ (lookup_insert_eq _ _ _)).
  unfold read_file. cbn [contents].
  set (st0 := initial_stats p (mkFile size (Text (pre ++ Undecodable :: post)) rm)).
  change (initial_stats p (mkFile size' (Text (pre ++ post)) rm'))
    with (with_size (Z.of_N size' # 1024) st0).
  rewrite (scan_with_undecodable pre post _ Hpre), for_each_scan_resize.
  destruct (for_each_scan_frame (pre ++ post) st0) as (_ & _ & Hkb & _).
  change (size_kb st0) with (Z.of_N size # 1024) in Hkb.
  destruct (for_each scan_line (pre ++ post) st0) as [[[]|e] st2]; cbn [fst snd] in *.
  - change (tool_calls (incr_message_count st2)) with (tool_calls st2).
    change (tool_calls (with_size (Z.of_N size' # 1024) st2)) with (tool_calls st2).
    destruct (fst (command_warnings (most_common 5 (tool_calls st2)))) as [[]|e'];
      [|reflexivity].
    repeat split; try reflexivity; [exact Hkb|].
    intros Hm Hs. cbn [issues add_issues]. f_equal.
    rewrite (size_rule_quiet (incr_message_count st2) size Hkb Hs).
    rewrite (size_rule_quiet (with_size (Z.of_N size' # 1024) st2) size' eq_refl)
      by (apply N.le_trans with size; assumption).
    cbn [message_count warmup_errors tool_calls incr_message_count with_size add_issues]
      in *.
    assert (E1 : (500 <? S (message_count st2)) = false) by (apply Nat.ltb_ge; lia).
    assert (E2 : (500 <? message_count st2) = false) by (apply Nat.ltb_ge; lia).
    rewrite E1, E2. reflexivity.
  - repeat split; try reflexivity. exact Hkb.
Qed.

Lemma undecodable_line_counts_once_witness :
  read_ok [Decoded (user_record [warmup_item])]
  /\ (691 <= 700)%N
  /\ match analyze_session
             (<["/s/a.jsonl" := mkFile 700
                  (Text ([Decoded (user_record [warmup_item])] ++
                         Undecodable :: [Decoded (assistant_record [bash_item "ls"])]))
                  true]> ∅) "/s/a.jsonl",
           analyze_session
             (<["/s/a.jsonl" := mkFile 691
                  (Text ([Decoded (user_record [warmup_item])] ++
                         [Decoded (assistant_record [bash_item "ls"])])) true]> ∅)
             "/s/a.jsonl" with
     | Ok st, Ok st' =>
         message_count st = S (message_count st')
         /\ warmup_errors st = warmup_errors st'
         /\ tool_calls st = tool_calls st'
         /\ is_sidechain st = is_sidechain st'
         /\ path st = path st' /\ name st = name st'
         /\ size_kb st = (700 # 1024) /\ size_kb st' = (691 # 1024)
         /\ (message_count st <= 500 -> (700 <= 2000 * 1024)%N -> issues st = issues st')
     | Raise e, Raise e' => e = e'
     | _, _ => False
     end.
Proof.
  assert (Hpre : read_ok [Decoded (user_record [warmup_item])]) by (repeat constructor).
  assert (Hsize : (691 <= 700)%N) by lia.
  split; [exact Hpre|]. split; [exact Hsize|].
  exact (undecodable_line_counts_once ∅ "/s/a.jsonl" 700 691 true true
           [Decoded (user_record [warmup_item])]
           [Decoded (assistant_record [bash_item "ls"])] Hpre Hsize).
Defined.

(** What the two analyses of the witness return. *)
Example undecodable_line_in_the_middle :
  analyze_session
    (session "/s/a.jsonl" 700
       [Decoded (user_record [warmup_item]); Undecodable;
        Decoded (assistant_record [bash_item "ls"])]) "/s/a.jsonl"
  = Ok (mkStats "/s/a.jsonl" "a.jsonl" (700 # 1024) 3 1 [(JStr "ls", 1)] false [])
  /\ analyze_session
    (session "/s/a.jsonl" 691
       [Decoded (user_record [warmup_item]);
        Decoded (assistant_record [bash_item "ls"])]) "/s/a.jsonl"
  = Ok (mkStats "/s/a.jsonl" "a.jsonl" (691 # 1024) 2 1 [(JStr "ls", 1)] false []).
Proof. split; vm_compute; reflexivity. Qed.

(** C6 as stated fails in three ways.  The file without the line is smaller,
    so the statistics differ in their size.  With 500 records and one line
    that does not decode the message-count rule fires, and without the line
    it does not: the statistics differ in their issues too.  And a line that
    does not decode after a record on which the scan stops is never counted:
    with it or without it the record count is 1. *)
Lemma undecodable_line_changes_more_or_less :
  analyze_session
    (session "/s/a.jsonl" 90009 (repeat (Decoded plain_record) 500 ++ [Undecodable]))
    "/s/a.jsonl"
  = Ok (mkStats "/s/a.jsonl" "a.jsonl" (90009 # 1024) 501 0 [] false
          ["WARNING: Excessive messages (501)"])
  /\ analyze_session
    (session "/s/a.jsonl" 90000 (repeat (Decoded plain_record) 500)) "/s/a.jsonl"
  = Ok (mkStats "/s/a.jsonl" "a.jsonl" (90000 # 1024) 500 0 [] false [])
  /\ analyze_session
    (session "/s/b.jsonl" 60 [Decoded str_message_record; Undecodable]) "/s/b.jsonl"
  = Ok (mkStats "/s/b.jsonl" "b.jsonl" (60 # 1024) 1 0 [] false
          ["Error reading file: 'str' object has no attribute 'get'"])
  /\ analyze_session
    (session "/s/b.jsonl" 51 [Decoded str_message_record]) "/s/b.jsonl"
  = Ok (mkStats "/s/b.jsonl" "b.jsonl" (51 # 1024) 1 0 [] false
          ["Error reading file: 'str' object has no attribute 'get'"]).
Proof. repeat split; vm_compute; reflexivity. Qed.

(** ** [most_common]: a stable sort by falling count *)

Lemma insert_desc_perm (x : json * nat) (l : list (json * nat)) :
  Permutation (insert_desc x l) (x :: l).
Proof.
  induction l as [|y l IH]; simpl.
  - reflexivity.
  - destruct (snd y <=? snd x); [reflexivity|].
    rewrite IH. apply perm_swap.
Qed.

Lemma sort_desc_perm (l : list (json * nat)) : Permutation (sort_desc l) l.
Proof.
  induction l as [|x l IH]; simpl; [reflexivity|].
  rewrite insert_desc_perm, IH. reflexivity.
Qed.

Lemma insert_desc_sorted (x : json * nat) (l : list (json * nat)) :
  Sorted (fun a b => snd b <= snd a) l ->
  Sorted (fun a b => snd b <= snd a) (insert_desc x l).
Proof.
  induction 1 as [|y l Hl IH Hy]; simpl.
  - repeat constructor.
  - destruct (snd y <=? snd x) eqn:E.
    + apply Nat.leb_le in E. repeat constructor; assumption.
    + apply Nat.leb_gt in E. constructor; [exact IH|].
      destruct l as [|z l]; simpl.
      * constructor. lia.
      * destruct (snd z <=? snd x); constructor; [lia|].
        inversion Hy; assumption.
Qed.

Lemma sort_desc_sorted (l : list (json * nat)) :
  Sorted (fun a b => snd b <= snd a) (sort_desc l).
Proof.
  induction l as [|x l IH]; simpl; [constructor | apply insert_desc_sorted, IH].
Qed.

Lemma insert_desc_stable (n : nat) (x : json * nat) (l : list (json * nat)) :
  List.filter (fun e => snd e =? n) (insert_desc x l)
  = List.filter (fun e => snd e =? n) (x :: l).
Proof.
  induction l as [|y l IH]; [reflexivity|].
  simpl insert_desc. destruct (snd y <=? snd x) eqn:E; [reflexivity|].
  apply Nat.leb_gt in E.
  cbn [List.filter]. rewrite IH. cbn [List.filter].
  destruct (Nat.eqb_spec (snd y) n), (Nat.eqb_spec (snd x) n);
    try reflexivity; lia.
Qed.

(** Entries with the same count come out in the order they went in. *)
Lemma sort_desc_stable (n : nat) (l : list (json * nat)) :
  List.filter (fun e => snd e =? n) (sort_desc l) = List.filter (fun e => snd e =? n) l.
Proof.
  induction l as [|x l IH]; [reflexivity|].
  simpl sort_desc. rewrite insert_desc_stable. simpl. rewrite IH. reflexivity.
Qed.

Lemma insert_desc_Forall (P : json * nat -> Prop) (x : json * nat) (l : list (json * nat)) :
  P x -> Forall P l -> Forall P (insert_desc x l).
Proof.
  intros Hx. induction 1 as [|y l Hy Hl IH]; simpl.
  - repeat constructor; assumption.
  - destruct (snd y <=? snd x); repeat constructor; assumption.
Qed.

Lemma filter_nil_Forall {A : Type} (f : A -> bool) (l : list A) :
  List.filter f l = [] -> Forall (fun x => f x = false) l.
Proof.
  induction l as [|x l IH]; simpl; [constructor|].
  destruct (f x) eqn:E; [discriminate|]. constructor; auto.
Qed.

Lemma sort_desc_Forall (P : json * nat -> Prop) (l : list (json * nat)) :
  Forall P l -> Forall P (sort_desc l).
Proof.
  induction 1; simpl; [constructor | apply insert_desc_Forall; assumption].
Qed.

(** When one entry only is past the threshold, it heads the sorted items. *)
Lemma sort_desc_one_repeated (a : json * nat) (l : list (json * nat)) :
  List.filter repeated l = [a] ->
  exists rest, sort_desc l = a :: rest /\ Forall (fun e => repeated e = false) rest.
Proof.
  induction l as [|x l IH]; simpl; [discriminate|].
  destruct (repeated x) eqn:Hx.
  - intros [= <- Hl]. apply filter_nil_Forall in Hl.
    apply (sort_desc_Forall _ _) in Hl.
    destruct (sort_desc l) as [|y rest]; simpl.
    + exists []. split; [reflexivity | constructor].
    + exists (y :: rest). split; [|exact Hl].
      inversion Hl as [|? ? Hy _]; subst. unfold repeated in *.
      apply Nat.ltb_lt in Hx. apply Nat.ltb_ge in Hy.
      destruct (Nat.leb_spec (snd y) (snd x)); [reflexivity | lia].
  - intros Hl. destruct (IH Hl) as (rest & -> & Hrest).
    assert (Ha : repeated a = true).
    { assert (Hin : In a (List.filter repeated l)) by (rewrite Hl; left; reflexivity).
      apply List.filter_In in Hin. tauto. }
    simpl. unfold repeated in *.
    apply Nat.ltb_lt in Ha. apply Nat.ltb_ge in Hx.
    destruct (Nat.leb_spec (snd a) (snd x)); [lia|].
    exists (insert_desc x rest). split; [reflexivity|].
    apply insert_desc_Forall; [apply Nat.ltb_ge; exact Hx | exact Hrest].
Qed.

Lemma command_warnings_quiet (l : list (json * nat)) :
  Forall (fun e => repeated e = false) l -> command_warnings l = (Ok tt, []).
Proof.
  induction 1 as [|[cmd count] l Hx _ IH]; simpl; [reflexivity|].
  unfold repeated in Hx. simpl in Hx. rewrite Hx. exact IH.
Qed.

Lemma Forall_firstn {A : Type} (P : A -> Prop) (n : nat) (l : list A) :
  Forall P l -> Forall P (firstn n l).
Proof.
  intros H. revert n. induction H; intros [|n]; simpl; constructor; auto.
Qed.

Lemma command_warnings_one_repeated (s : string) (count : nat) (c : counter) :
  List.filter repeated c = [(JStr s, count)] ->
  command_warnings (most_common 5 c) = (Ok tt, [command_issue count s]).
Proof.
  intros H. destruct (sort_desc_one_repeated _ _ H) as (rest & E & Hrest).
  assert (Hc : repeated (JStr s, count) = true).
  { assert (Hin : In (JStr s, count) (List.filter repeated c))
      by (rewrite H; left; reflexivity).
    apply List.filter_In in Hin. tauto. }
  unfold most_common. rewrite E. simpl firstn. simpl command_warnings.
  unfold repeated in Hc. simpl in Hc. rewrite Hc.
  rewrite (command_warnings_quiet _ (Forall_firstn _ 4 _ Hrest)). reflexivity.
Qed.

Lemma command_warnings_In (l : list (json * nat)) (i : string) :
  In i (snd (command_warnings l)) ->
  exists s count, In (JStr s, count) l /\ 50 < count /\ i = command_issue count s.
Proof.
  induction l as [|[cmd count] l IH]; simpl; [tauto|].
  destruct (50 <? count) eqn:E.
  - destruct cmd; simpl; try tauto.
    intros [<-|Hin].
    + exists s, count. apply Nat.ltb_lt in E. auto.
    + destruct (IH Hin) as (s' & c' & ? & ? & ?). exists s', c'. auto.
  - intros Hin. destruct (IH Hin) as (s' & c' & ? & ? & ?). exists s', c'. auto.
Qed.

(** ** What the [try] block leaves alone *)

(** ** The command rule *)

Lemma is_read_error_issue (e : string) : is_read_error (read_error_issue e) = true.
Proof. reflexivity. Qed.

Lemma analyze_session_issues (fs : gmap string file) (p : string) (st : stats) (i : string) :
  analyze_session fs p = Ok st -> In i (issues st) ->
  is_read_error i = true
  \/ In i (rule_issues (with_counts (message_count st) (warmup_errors st)
                         (tool_calls st) (is_sidechain st) st)).
Proof.
  destruct (fs !! p) as [f|] eqn:Hf;
    [|unfold analyze_session; rewrite Hf; discriminate].
  rewrite (analyze_session_eq _ _ _ Hf).
  destruct (read_file_frame f (initial_stats p f)) as (_ & _ & Hsz & His).
  destruct (read_file f (initial_stats p f)) as [[[]|e] st1]; simpl in *.
  - destruct (fst (command_warnings _)); [|discriminate].
    intros [= <-]. simpl. rewrite His. simpl. intros Hin. right. exact Hin.
  - intros [= <-]. simpl. rewrite His. simpl. intros [<-|[]]. left.
    apply is_read_error_issue.
Qed.

(** C7, as the code has it. In a session file that is read to its end, in
    which one tool name only, a string, has a count above 50, that count
    being 51, and where no other rule fires (at most 10 warmup errors, at
    most 500 records, at most 2000 KB),
    the analysis returns exactly one issue: the "Command repeated" WARNING
    with the count 51 and the name, cut to 50 characters.  In general every
    command WARNING among the issues of an analysis is the one of a name
    among [most_common(5)] whose count is above 50; and [most_common] takes
    the first five of the entries in falling order of count, entries of
    equal count in the order they were first met. *)
Theorem one_command_warning
    (fs : gmap string file) (p : string) (f : file) (st1 : stats) (s : string) :
  fs !! p = Some f ->
  read_file f (initial_stats p f) = (Ok tt, st1) ->
  List.filter repeated (tool_calls st1) = [(JStr s, 51)] ->
  warmup_errors st1 <= 10 ->
  message_count st1 <= 500 ->
  (st_size f <= 2000 * 1024)%N ->
  (exists st, analyze_session fs p = Ok st
     /\ tool_calls st = tool_calls st1
     /\ issues st = ["WARNING: Command repeated 51x: " +:+ String.substring 0 50 s +:+ "..."])
  /\ (forall fs' p' st' i,
        analyze_session fs' p' = Ok st' -> In i (issues st') ->
        is_command_warning i = true ->
        exists cmd count,
          In (JStr cmd, count) (most_common 5 (tool_calls st')) /\ 50 < count
          /\ i = command_issue count cmd)
  /\ (forall c,
        most_common 5 c = firstn 5 (sort_desc c)
        /\ Permutation (sort_desc c) c
        /\ Sorted (fun a b => snd b <= snd a) (sort_desc c)
        /\ forall n, List.filter (fun e => snd e =? n) (sort_desc c)
                     = List.filter (fun e => snd e =? n) c).
Proof.
  intros Hf Hread Hone Hw Hm Hsz. split; [|split].
  - rewrite (analyze_session_eq _ _ _ Hf), Hread.
    rewrite (command_warnings_one_repeated _ _ _ Hone). simpl fst.
    eexists. split; [reflexivity|]. split; [reflexivity|].
    destruct (read_file_frame f (initial_stats p f)) as (_ & _ & Hkb & His).
    rewrite Hread in Hkb, His. simpl in Hkb, His.
    simpl issues. rewrite His. unfold rule_issues.
    rewrite (command_warnings_one_repeated _ _ _ Hone), Hkb, size_rule.
    assert (E1 : (10 <? warmup_errors st1) = false) by (apply Nat.ltb_ge; lia).
    assert (E2 : (500 <? message_count st1) = false) by (apply Nat.ltb_ge; lia).
    assert (E3 : (2000 * 1024 <? st_size f)%N = false) by (apply N.ltb_ge; lia).
    rewrite E1, E2, E3. reflexivity.
  - intros fs' p' st' i Ha Hin Hcmd.
    destruct (analyze_session_issues _ _ _ _ Ha Hin) as [Herr|Hrule].
    + unfold is_read_error, is_command_warning in *.
      destruct i as [|c i]; [discriminate|].
      destruct c as [[] [] [] [] [] [] [] []]; simpl in *; discriminate.
    + unfold rule_issues in Hrule. simpl in Hrule.
      repeat (apply in_app_or in Hrule; destruct Hrule as [Hrule|Hrule]).
      * destruct (10 <? warmup_errors st'); [|destruct Hrule].
        destruct Hrule as [<-|[]]. discriminate.
      * destruct (500 <? message_count st'); [|destruct Hrule].
        destruct Hrule as [<-|[]]. discriminate.
      * apply command_warnings_In, Hrule.
      * destruct (negb _); [|destruct Hrule].
        destruct Hrule as [<-|[]]. discriminate.
  - intros c. split; [reflexivity|]. split; [apply sort_desc_perm|].
    split; [apply sort_desc_sorted | intros n; apply sort_desc_stable].
Qed.

Lemma one_command_warning_witness :
  repeated_session !! "/s/a.jsonl" = Some repeated_file
  /\ read_file repeated_file (initial_stats "/s/a.jsonl" repeated_file) = (Ok tt, repeated_stats)
  /\ List.filter repeated (tool_calls repeated_stats) = [(JStr "npm test", 51)]
  /\ warmup_errors repeated_stats <= 10
  /\ message_count repeated_stats <= 500
  /\ (st_size repeated_file <= 2000 * 1024)%N
  /\ exists st, analyze_session repeated_session "/s/a.jsonl" = Ok st
       /\ tool_calls st = [(JStr "npm test", 51); (JStr "git status", 50)]
       /\ issues st = ["WARNING: Command repeated 51x: npm test..."].
Proof.
  assert (H1 : repeated_session !! "/s/a.jsonl" = Some repeated_file) by reflexivity.
  assert (H2 : read_file repeated_file (initial_stats "/s/a.jsonl" repeated_file)
               = (Ok tt, repeated_stats)) by (vm_compute; reflexivity).
  assert (H3 : List.filter repeated (tool_calls repeated_stats) = [(JStr "npm test", 51)])
    by reflexivity.
  assert (H4 : warmup_errors repeated_stats <= 10) by (simpl; lia).
  assert (H5 : message_count repeated_stats <= 500) by (simpl; lia).
  assert (H6 : (st_size repeated_file <= 2000 * 1024)%N) by (simpl; lia).
  repeat (split; [assumption|]).
  exact (proj1 (one_command_warning repeated_session "/s/a.jsonl" repeated_file
                  repeated_stats "npm test" H1 H2 H3 H4 H5 H6)).
Defined.

(** C7 as stated fails: a file in which one name is invoked 51 times and
    no count, size or warmup rule fires gets no command WARNING when a later
    line stops the scan, since the read error is then its only issue; and
    when the name is a number the rule raises at [cmd[:50]] and the analysis
    returns nothing. *)
Lemma repeated_command_without_warning :
  analyze_session {[ "/s/a.jsonl" := interrupted_file ]} "/s/a.jsonl"
  = Ok (mkStats "/s/a.jsonl" "a.jsonl" (30000 # 1024) 52 0 [(JStr "npm test", 51)] false
          ["Error reading file: 'list' object has no attribute 'get'"])
  /\ analyze_session {[ "/s/a.jsonl" := number_command_file ]} "/s/a.jsonl"
  = Raise (TypeError "'int' object is not subscriptable").
Proof. split; vm_compute; reflexivity. Qed.

(** With six names at 51 the rule warns about the first five met. *)
Example six_repeated_commands :
  most_common 5
    [(JStr "a", 51); (JStr "b", 50); (JStr "c", 51); (JStr "d", 51);
     (JStr "e", 52); (JStr "f", 51); (JStr "g", 51)]
  = [(JStr "e", 52); (JStr "a", 51); (JStr "c", 51); (JStr "d", 51); (JStr "f", 51)].
Proof. reflexivity. Qed.

(** ** The size rule *)

Lemma round_half_even_nearest (n : N) :
  (-1024 <= 2 * Z.of_N n - 2048 * round_half_even (Z.of_N n # 1024) <= 1024)%Z.
Proof.
  unfold round_half_even. simpl Qnum. simpl Qden.
  pose proof (Z.div_mod (Z.of_N n) 1024 ltac:(lia)) as Hdm.
  pose proof (Z.mod_pos_bound (Z.of_N n) 1024 ltac:(lia)) as Hm.
  change (Z.pos 1024) with 1024%Z.
  destruct (Z.ltb_spec (2 * (Z.of_N n mod 1024)) 1024); [lia|].
  destruct (Z.ltb_spec 1024 (2 * (Z.of_N n mod 1024))); [lia|].
  destruct (Z.even (Z.of_N n / 1024)); lia.
Qed.

Lemma command_warnings_not_size (l : list (json * nat)) :
  List.filter is_size_warning (snd (command_warnings l)) = [].
Proof.
  induction l as [|[cmd count] l IH]; simpl; [reflexivity|].
  destruct (50 <? count); [|exact IH].
  destruct cmd; try reflexivity. simpl. exact IH.
Qed.

Lemma rule_issues_size (st : stats) :
  List.filter is_size_warning (rule_issues st)
  = if negb (Qle_bool (size_kb st) 2000) then [size_issue (size_kb st)] else [].
Proof.
  unfold rule_issues. rewrite !List.filter_app, command_warnings_not_size.
  destruct (10 <? warmup_errors st), (500 <? message_count st),
    (negb (Qle_bool (size_kb st) 2000)); reflexivity.
Qed.

(** Half-way between two integers [round_half_even] gives the even one. *)
Lemma round_half_even_tie (n : N) :
  (2 * Z.of_N n - 2048 * round_half_even (Z.of_N n # 1024) = 1024
   \/ 2 * Z.of_N n - 2048 * round_half_even (Z.of_N n # 1024) = -1024)%Z ->
  Z.even (round_half_even (Z.of_N n # 1024)) = true.
Proof.
  unfold round_half_even. simpl Qnum. simpl Qden.
  pose proof (Z.div_mod (Z.of_N n) 1024 ltac:(lia)) as Hdm.
  pose proof (Z.mod_pos_bound (Z.of_N n) 1024 ltac:(lia)) as Hm.
  change (Z.pos 1024) with 1024%Z.
  destruct (Z.ltb_spec (2 * (Z.of_N n mod 1024)) 1024); [lia|].
  destruct (Z.ltb_spec 1024 (2 * (Z.of_N n mod 1024))); [lia|].
  intros _. destruct (Z.even (Z.of_N n / 1024)) eqn:He; [exact He|].
  rewrite Z.even_add, He. reflexivity.
Qed.

Lemma command_warnings_strings (l : list (json * nat)) :
  Forall (fun entry => 50 < snd entry -> exists s, fst entry = JStr s) l ->
  fst (command_warnings l) = Ok tt.
Proof.
  induction 1 as [|[cmd count] l Hs _ IH]; simpl in *; [reflexivity|].
  destruct (Nat.ltb_spec 50 count) as [Hlt|_]; [|exact IH].
  destruct (Hs Hlt) as [s ->]. exact IH.
Qed.

(** C8, as the code has it. The size rule is the last statement of the
    analysis.  It is reached on a file that is read to its end and on which
    the command rule before it does not raise, which is the case when every
    name with a count above 50 among the five most common is a string: then
    the analysis returns, and a size above 2000 * 1024 bytes gives exactly
    one size WARNING, citing the rounded size, while a size of 2000 * 1024
    bytes or less gives none.  A file whose read fails gets the read-error
    issue and nothing else, whatever its size.  The size cited is the
    integer nearest to [size / 1024], the even one of the two when the size
    is half-way; sizes are below 2^53 bytes, where [size / 1024] is exact. *)
Theorem size_warning_strict (fs : gmap string file) (p : string) (f : file) :
  fs !! p = Some f ->
  (st_size f < 2 ^ 53)%N ->
  let kb := round_half_even (Z.of_N (st_size f) # 1024) in
  (forall st1,
      read_file f (initial_stats p f) = (Ok tt, st1) ->
      Forall (fun entry => 50 < snd entry -> exists s, fst entry = JStr s)
        (most_common 5 (tool_calls st1)) ->
      exists st, analyze_session fs p = Ok st
        /\ ((2000 * 1024 < st_size f)%N ->
            List.filter is_size_warning (issues st)
            = ["WARNING: Large session file (" +:+ NilZero.string_of_int (Z.to_int kb)
               +:+ "KB)"])
        /\ ((st_size f <= 2000 * 1024)%N -> List.filter is_size_warning (issues st) = []))
  /\ (forall e st1,
      read_file f (initial_stats p f) = (Raise e, st1) ->
      exists st, analyze_session fs p = Ok st
        /\ issues st = ["Error reading file: " +:+ str_of_exn e])
  /\ (-1024 <= 2 * Z.of_N (st_size f) - 2048 * kb <= 1024)%Z
  /\ ((2 * Z.of_N (st_size f) - 2048 * kb = 1024
       \/ 2 * Z.of_N (st_size f) - 2048 * kb = -1024)%Z -> Z.even kb = true).
Proof.
  intros Hf _ kb.
  destruct (read_file_frame f (initial_stats p f)) as (_ & _ & Hkb & His).
  change (issues (initial_stats p f)) with (@nil string) in His.
  change (size_kb (initial_stats p f)) with (Z.of_N (st_size f) # 1024) in Hkb.
  split; [|split; [|split]].
  - intros st1 Hread Hstr. rewrite (analyze_session_eq _ _ _ Hf), Hread.
    rewrite Hread in Hkb, His. cbn [snd] in Hkb, His.
    rewrite (command_warnings_strings _ Hstr).
    eexists. split; [reflexivity|].
    cbn [issues add_issues]. rewrite His. cbn [app].
    rewrite rule_issues_size, Hkb, size_rule. split.
    + intros Hlt. apply N.ltb_lt in Hlt. rewrite Hlt. reflexivity.
    + intros Hle. apply N.ltb_ge in Hle. rewrite Hle. reflexivity.
  - intros e st1 Hread. rewrite (analyze_session_eq _ _ _ Hf), Hread.
    rewrite Hread in His. cbn [snd] in His.
    eexists. split; [reflexivity|]. cbn [issues append_issue]. rewrite His. reflexivity.
  - apply round_half_even_nearest.
  - apply round_half_even_tie.
Qed.

(** A file of 2001.5 KB that is read to its end: the WARNING cites 2002. *)
Lemma size_warning_strict_witness :
  tie_session 2049536 !! "/s/a.jsonl" = Some (mkFile 2049536 (Text []) true)
  /\ (2049536 < 2 ^ 53)%N
  /\ (2 * 2049536 - 2048 * 2002 = -1024)%Z
  /\ exists st, analyze_session (tie_session 2049536) "/s/a.jsonl" = Ok st
       /\ List.filter is_size_warning (issues st) = ["WARNING: Large session file (2002KB)"].
Proof.
  assert (H1 : tie_session 2049536 !! "/s/a.jsonl" = Some (mkFile 2049536 (Text []) true))
    by reflexivity.
  assert (H2 : (st_size (mkFile 2049536 (Text []) true) < 2 ^ 53)%N)
    by (vm_compute; reflexivity).
  split; [exact H1|]. split; [exact H2|]. split; [reflexivity|].
  destruct (size_warning_strict (tie_session 2049536) "/s/a.jsonl" _ H1 H2)
    as (Hread & _ & _ & _).
  destruct (Hread _ eq_refl (List.Forall_nil _)) as (st & Ha & Hgt & _).
  exists st. split; [exact Ha | exact (Hgt eq_refl)].
Defined.

(** What the analysis returns at the two half-way sizes: 2000.5 KB is cited
    as 2000, 2001.5 KB as 2002. *)
Example half_way_sizes :
  analyze_session (tie_session 2048512) "/s/a.jsonl"
  = Ok (mkStats "/s/a.jsonl" "a.jsonl" (2048512 # 1024) 0 0 [] false
          ["WARNING: Large session file (2000KB)"])
  /\ analyze_session (tie_session 2049536) "/s/a.jsonl"
  = Ok (mkStats "/s/a.jsonl" "a.jsonl" (2049536 # 1024) 0 0 [] false
          ["WARNING: Large session file (2002KB)"]).
Proof. split; vm_compute; reflexivity. Qed.

(** A file of exactly 2000 KB gets no size warning. *)
Example no_size_warning_at_2000_kb :
  analyze_session boundary_session "/s/a.jsonl"
  = Ok (mkStats "/s/a.jsonl" "a.jsonl" (2048000 # 1024) 0 0 [] false []).
Proof. vm_compute. reflexivity. Qed.

(** C8 as stated fails: a file above 2000 KB whose read fails, at [open] or
    on a record, gets the read-error issue and no size warning. *)
Lemma large_unread_file_no_size_warning :
  analyze_session denied_session "/s/big.jsonl"
  = Ok (mkStats "/s/big.jsonl" "big.jsonl" (3000000 # 1024) 0 0 [] false
          ["Error reading file: [Errno 13] Permission denied: '/s/big.jsonl'"])
  /\ analyze_session broken_session "/s/big.jsonl"
  = Ok (mkStats "/s/big.jsonl" "big.jsonl" (3000000 # 1024) 2 0 [] false
          ["Error reading file: 'str' object has no attribute 'get'"]).
Proof. split; vm_compute; reflexivity. Qed.

(** ** Runs *)

Lemma analyze_session_size_contents
    (fs1 fs2 : gmap string file) (p : string) (f1 f2 : file) :
  fs1 !! p = Some f1 -> fs2 !! p = Some f2 ->
  st_size f1 = st_size f2 -> contents f1 = contents f2 ->
  analyze_session fs1 p = analyze_session fs2 p.
Proof.
  intros H1 H2 Hs Hc. unfold analyze_session. rewrite H1, H2.
  unfold read_file, initial_stats. rewrite Hs, Hc. reflexivity.
Qed.

Lemma disk_without_fix (a : args) (w : world) :
  args_fix a = false -> disk (main a w) = files w.
Proof.
  intros Hfix. unfold main. destruct (negb (path_exists w (args_path a))); [reflexivity|].
  destruct (scan_sessions _ _ _ _) as [[res [|st prob]]|e]; try reflexivity;
    destruct (args_json a); try reflexivity.
  rewrite Hfix. destruct (report w (st :: prob)); reflexivity.
Qed.

(** C9. A run without [--fix] leaves every file on disk as it was, and a
    second run over the files it left gives the same statistics, the same
    list of problematic files and the same exit status; the statistics of a
    file depend on nothing but its path, its size and its contents. *)
Theorem run_without_fix_changes_nothing (a : args) (w : world) :
  args_fix a = false ->
  disk (main a w) = files w
  /\ main a (mkWorld (path_exists w) (rglob w) (disk (main a w)) (encodes w)) = main a w
  /\ (forall fs1 fs2 p f1 f2,
        fs1 !! p = Some f1 -> fs2 !! p = Some f2 ->
        st_size f1 = st_size f2 -> contents f1 = contents f2 ->
        analyze_session fs1 p = analyze_session fs2 p).
Proof.
  intros Hfix. split; [|split].
  - apply disk_without_fix, Hfix.
  - rewrite (disk_without_fix a w Hfix). destruct w; reflexivity.
  - apply analyze_session_size_contents.
Qed.

Lemma run_without_fix_changes_nothing_witness :
  args_fix (mkArgs false "/logs" false) = false
  /\ disk (main (mkArgs false "/logs" false) grep_world) = files grep_world
  /\ main (mkArgs false "/logs" false)
       (mkWorld (path_exists grep_world) (rglob grep_world)
          (disk (main (mkArgs false "/logs" false) grep_world)) (encodes grep_world))
     = main (mkArgs false "/logs" false) grep_world.
Proof.
  split; [reflexivity|].
  pose proof (run_without_fix_changes_nothing (mkArgs false "/logs" false) grep_world eq_refl)
    as (H1 & H2 & _).
  split; [exact H1 | exact H2].
Defined.

(** C1 on a concrete run. With [--fix], a file whose only issue is the
    WARNING about a repeated command is removed when the command holds the
    word CRITICAL, and so is a file whose only issue is a read error that
    quotes a path holding it: ["CRITICAL" in i] looks anywhere in the
    message.  Neither file has a CRITICAL issue. *)
Theorem warning_only_file_removed :
  analyze_session (files grep_world) "/logs/a.jsonl"
  = Ok (mkStats "/logs/a.jsonl" "a.jsonl" (30000 # 1024) 51 0
          [(JStr "grep CRITICAL app.log", 51)] false
          ["WARNING: Command repeated 51x: grep CRITICAL app.log..."])
  /\ analyze_session (files grep_world) "/logs/CRITICAL/b.jsonl"
  = Ok (mkStats "/logs/CRITICAL/b.jsonl" "b.jsonl" (500 # 1024) 0 0 [] false
          ["Error reading file: [Errno 13] Permission denied: '/logs/CRITICAL/b.jsonl'"])
  /\ is_warning "WARNING: Command repeated 51x: grep CRITICAL app.log..." = true
  /\ is_critical "WARNING: Command repeated 51x: grep CRITICAL app.log..." = false
  /\ is_critical "Error reading file: [Errno 13] Permission denied: '/logs/CRITICAL/b.jsonl'"
     = false
  /\ files grep_world !! "/logs/a.jsonl" = Some grep_file
  /\ files grep_world !! "/logs/CRITICAL/b.jsonl" = Some denied_file
  /\ disk (main (mkArgs true "/logs" false) grep_world) !! "/logs/a.jsonl" = None
  /\ disk (main (mkArgs true "/logs" false) grep_world) !! "/logs/CRITICAL/b.jsonl" = None.
Proof. repeat split; vm_compute; reflexivity. Qed.

(** C2 on a concrete run. With [--json], [main] returns [None] and the
    process exits with status 0, although one file is problematic; without
    [--json] the same run exits with status 1. *)
Theorem json_run_exits_zero :
  length (problematic (main (mkArgs false "/s" true) large_world)) = 1
  /\ exit_status (main (mkArgs false "/s" true) large_world) = 0
  /\ exit_status (main (mkArgs false "/s" false) large_world) = 1.
Proof. repeat split; vm_compute; reflexivity. Qed.

(** C4 on a concrete run. When a file that [rglob] found is gone by the
    time it is analysed, [stat()], which stands before the [try], raises;
    nothing catches it, and the run ends there: no statistics for the other
    file, exit status 1. *)
Theorem vanished_file_ends_the_run :
  files vanished_world !! "/s/gone.jsonl" = None
  /\ analyze_session (files vanished_world) "/s/gone.jsonl"
     = Raise (OSError "[Errno 2] No such file or directory: '/s/gone.jsonl'")
  /\ main (mkArgs false "/s" false) vanished_world = mkRun 1 [] [] (files vanished_world).
Proof. repeat split; vm_compute; reflexivity. Qed.

(** ** What holds of every run *)

Lemma analyze_session_path (fs : gmap string file) (p : string) (st : stats) :
  analyze_session fs p = Ok st -> path st = p.
Proof.
  intros Ha. destruct (fs !! p) as [f|] eqn:Hf;
    [|unfold analyze_session in Ha; rewrite Hf in Ha; discriminate].
  destruct (analyze_session_counters _ _ _ _ Hf Ha) as [l ->].
  destruct (read_file_frame f (initial_stats p f)) as (Hp & _). exact Hp.
Qed.

(** The loop of [main] analyses the sessions in order; the problematic ones
    are the results with an issue. *)
Lemma scan_sessions_spec (fs : gmap string file) (sessions : list string)
    (res0 prob0 res prob : list stats) :
  scan_sessions fs sessions res0 prob0 = Ok (res, prob) ->
  exists new,
    Forall2 (fun p st => analyze_session fs p = Ok st) sessions new
    /\ res = res0 ++ new
    /\ prob = prob0 ++ List.filter (fun st => negb (bool_decide (issues st = []))) new.
Proof.
  revert res0 prob0. induction sessions as [|p sessions IH]; intros res0 prob0; simpl.
  - intros [= <- <-]. exists []. rewrite !app_nil_r. repeat constructor.
  - destruct (analyze_session fs p) as [st|e] eqn:Ha; [|discriminate].
    intros H. destruct (IH _ _ H) as (new & Hnew & -> & ->).
    exists (st :: new). split; [constructor; assumption|].
    rewrite <- !app_assoc. split; [reflexivity|]. simpl.
    destruct (issues st); simpl; [reflexivity|].
    rewrite <- app_assoc. reflexivity.
Qed.

Lemma prints_app (w : world) (s t : string) :
  prints w (s +:+ t) = prints w s && prints w t.
Proof.
  induction s as [|c s IH]; [reflexivity|].
  change (String c s +:+ t) with (String c (s +:+ t)). cbn [prints].
  rewrite IH. apply andb_assoc.
Qed.

Lemma report_printable (w : world) (prob : list stats) :
  Forall (printable w) prob -> report w prob = true.
Proof.
  intros H. unfold report. apply forallb_forall. intros st Hin.
  rewrite List.Forall_forall in H. destruct (H st Hin) as (Hn & _ & Hi).
  unfold report_stats. cbn [prints]. rewrite Hn. simpl.
  apply forallb_forall. intros i Hi'. rewrite List.Forall_forall in Hi.
  rewrite prints_app, (Hi i Hi'). reflexivity.
Qed.

Lemma os_remove_message (w : world) (p : string) (fs : gmap string file) (e : exn) :
  os_remove p fs = Raise e -> prints w p = true -> prints w (str_of_exn e) = true.
Proof.
  unfold os_remove. intros H Hp.
  destruct (fs !! p) as [f|]; [destruct (removable f); [discriminate|]|];
    injection H as <-; cbn [str_of_exn]; rewrite !prints_app, Hp; reflexivity.
Qed.

Lemma cleanup_printable (w : world) (prob : list stats) (fs : gmap string file) :
  Forall (printable w) prob -> fst (cleanup w prob fs) = true.
Proof.
  intros H. revert fs. induction H as [|st prob (Hn & Hp & _) _ IH]; intros fs; [reflexivity|].
  cbn [cleanup]. destruct (existsb (str_in "CRITICAL") (issues st)); [|apply IH].
  destruct (os_remove (path st) fs) as [fs'|e] eqn:Hr.
  - rewrite prints_app, Hn. apply IH.
  - rewrite !prints_app, Hn, (os_remove_message w _ _ _ Hr Hp). apply IH.
Qed.

(** Without [--json], a run that no exception ends exits with the number of
    problematic files, the results that carry an issue: the analyses return,
    and what is printed of the problematic sessions can be written. *)
Theorem exit_status_counts_problematic (a : args) (w : world) (res prob : list stats) :
  path_exists w (args_path a) = true ->
  args_json a = false ->
  scan_sessions (files w) (find_sessions w (args_path a)) [] [] = Ok (res, prob) ->
  Forall (printable w) prob ->
  exit_status (main a w) = length prob
  /\ prob = List.filter (fun st => negb (bool_decide (issues st = []))) res
  /\ Forall2 (fun p st => analyze_session (files w) p = Ok st)
       (find_sessions w (args_path a)) res.
Proof.
  intros He Hj Hs Hpr. unfold main. rewrite He, Hs, Hj. simpl.
  destruct (scan_sessions_spec _ _ _ _ _ _ Hs) as (new & Hnew & -> & Hprob). simpl in Hprob.
  split; [|split; [exact Hprob | exact Hnew]].
  destruct prob as [|st prob]; [reflexivity|].
  rewrite (report_printable w _ Hpr).
  destruct (args_fix a); [|reflexivity].
  pose proof (cleanup_printable w (st :: prob) (files w) Hpr) as Hc.
  destruct (cleanup w (st :: prob) (files w)) as [[] fs']; [reflexivity | discriminate].
Qed.

Lemma exit_status_counts_problematic_witness :
  exit_status (main (mkArgs true "/logs" false) grep_world) = 2.
Proof.
  assert (Hs : scan_sessions (files grep_world)
                 (find_sessions grep_world (args_path (mkArgs true "/logs" false))) [] []
               = Ok ([mkStats "/logs/a.jsonl" "a.jsonl" (30000 # 1024) 51 0
                        [(JStr "grep CRITICAL app.log", 51)] false
                        ["WARNING: Command repeated 51x: grep CRITICAL app.log..."];
                      mkStats "/logs/CRITICAL/b.jsonl" "b.jsonl" (500 # 1024) 0 0 [] false
                        ["Error reading file: [Errno 13] Permission denied: '/logs/CRITICAL/b.jsonl'"]],
                     [mkStats "/logs/a.jsonl" "a.jsonl" (30000 # 1024) 51 0
                        [(JStr "grep CRITICAL app.log", 51)] false
                        ["WARNING: Command repeated 51x: grep CRITICAL app.log..."];
                      mkStats "/logs/CRITICAL/b.jsonl" "b.jsonl" (500 # 1024) 0 0 [] false
                        ["Error reading file: [Errno 13] Permission denied: '/logs/CRITICAL/b.jsonl'"]]))
    by (vm_compute; reflexivity).
  refine (proj1 (exit_status_counts_problematic (mkArgs true "/logs" false) grep_world
                   _ _ eq_refl eq_refl Hs _)).
  repeat constructor.
Defined.

Lemma cleanup_keeps (w : world) (prob : list stats) (fs : gmap string file) (p : string) :
  (forall st, In st prob -> path st = p ->
     existsb (str_in "CRITICAL") (issues st) = false) ->
  snd (cleanup w prob fs) !! p = fs !! p.
Proof.
  revert fs. induction prob as [|st prob IH]; intros fs H; cbn [cleanup]; [reflexivity|].
  assert (IH' : forall fs', snd (cleanup w prob fs') !! p = fs' !! p).
  { intros fs'. apply IH. intros st' Hin. apply H. right. exact Hin. }
  destruct (existsb (str_in "CRITICAL") (issues st)) eqn:Hc; [|apply IH'].
  unfold os_remove. destruct (fs !! path st) as [f|];
    [|destruct (prints w _); [apply IH' | reflexivity]].
  destruct (removable f); [|destruct (prints w _); [apply IH' | reflexivity]].
  assert (Hd : delete (path st) fs !! p = fs !! p).
  { apply lookup_delete_ne. intros Hp.
    rewrite (H st (or_introl eq_refl) Hp) in Hc. discriminate. }
  destruct (prints w _); [rewrite IH'|]; exact Hd.
Qed.

(** The cleanup phase removes a file only if an issue of its statistics
    holds the text CRITICAL somewhere: a file none of whose issues holds it
    is on disk after the run as it was before, with [--fix] or without. *)
Theorem file_without_critical_text_kept (a : args) (w : world) (p : string) :
  (forall st, analyze_session (files w) p = Ok st ->
     existsb (str_in "CRITICAL") (issues st) = false) ->
  disk (main a w) !! p = files w !! p.
Proof.
  intros H. unfold main.
  destruct (negb (path_exists w (args_path a))); [reflexivity|].
  destruct (scan_sessions _ _ _ _) as [[res prob]|e] eqn:Hs; [|reflexivity].
  destruct (args_json a); [reflexivity|].
  destruct prob as [|st0 prob0] eqn:Hprob; [reflexivity|].
  destruct (report w (st0 :: prob0)); [|reflexivity].
  destruct (args_fix a); [|reflexivity].
  assert (Hk : snd (cleanup w (st0 :: prob0) (files w)) !! p = files w !! p);
    [|destruct (cleanup w (st0 :: prob0) (files w)) as [[] fs']; exact Hk].
  apply (cleanup_keeps w (st0 :: prob0)). intros st Hin Hp. apply H.
  destruct (scan_sessions_spec _ _ _ _ _ _ Hs) as (new & Hnew & _ & Hprob').
  simpl in Hprob'. rewrite Hprob' in Hin. apply List.filter_In in Hin as [Hin _].
  clear - Hnew Hin Hp. induction Hnew as [|q st' qs sts Hq _ IH]; [destruct Hin|].
  destruct Hin as [->|Hin]; [|exact (IH Hin)].
  rewrite <- (analyze_session_path _ _ _ Hq) in Hq. rewrite Hp in Hq. exact Hq.
Qed.

Lemma file_without_critical_text_kept_witness :
  disk (main (mkArgs true "/s" false) large_world) !! "/s/a.jsonl"
  = files large_world !! "/s/a.jsonl".
Proof.
  apply (file_without_critical_text_kept (mkArgs true "/s" false) large_world "/s/a.jsonl").
  intros st Ha.
  assert (E : analyze_session (files large_world) "/s/a.jsonl"
     = Ok (mkStats "/s/a.jsonl" "a.jsonl" (2098176 # 1024) 0 0 [] false
             ["WARNING: Large session file (2049KB)"])) by (vm_compute; reflexivity).
  rewrite E in Ha. injection Ha as <-. vm_compute. reflexivity.
Defined.

(** A file that [open] refuses is recovered from: its statistics hold the
    read-error issue alone and counts of zero. *)
Theorem unreadable_file_recovered
    (fs : gmap string file) (p : string) (f : file) (err : string) :
  fs !! p = Some f ->
  contents f = Unreadable err ->
  analyze_session fs p
  = Ok (mkStats p (path_name p) (Z.of_N (st_size f) # 1024) 0 0 [] false
          ["Error reading file: " +:+ err]).
Proof.
  intros Hf Hc. unfold analyze_session, read_file. rewrite Hf, Hc. reflexivity.
Qed.

Lemma unreadable_file_recovered_witness :
  analyze_session denied_session "/s/big.jsonl"
  = Ok (mkStats "/s/big.jsonl" "big.jsonl" (3000000 # 1024) 0 0 [] false
          ["Error reading file: [Errno 13] Permission denied: '/s/big.jsonl'"]).
Proof.
  exact (unreadable_file_recovered denied_session "/s/big.jsonl"
           (mkFile 3000000 (Unreadable "[Errno 13] Permission denied: '/s/big.jsonl'") true)
           "[Errno 13] Permission denied: '/s/big.jsonl'" eq_refl eq_refl).
Defined.

(** ** The scan of a whole file *)

Lemma names_result_hashable (names : list json) :
  names_result names = Ok tt -> Forall (fun k => hashable k = true) names.
Proof.
  induction names as [|k names IH]; simpl; [constructor|].
  destruct (hashable k) eqn:Hk; [|discriminate]. intros H. constructor; auto.
Qed.

Lemma line_result_hashable (ln : line) :
  line_result ln = Ok tt -> Forall (fun k => hashable k = true) (line_names ln).
Proof.
  destruct ln as [|msg]; [constructor|].
  destruct msg as [| | | | |?|d]; try discriminate.
  unfold line_result, line_names. rewrite record_type_get.
  destruct (str_is (dict_get d "type" JNull) "user") eqn:Hu.
  - rewrite (str_is_user_assistant _ Hu). constructor.
  - destruct (str_is (dict_get d "type" JNull) "assistant") eqn:Ha; [|constructor].
    unfold message_result.
    destruct (dict_get d "message" (JDict [])) eqn:Hm; try discriminate.
    apply names_result_hashable.
Qed.

Lemma count_all_app (n1 n2 : list json) (c : counter) :
  count_all (n1 ++ n2) c = count_all n2 (count_all n1 c).
Proof. unfold count_all. apply fold_left_app. Qed.

(** When every line is read, the scan leaves the number of lines, the
    warmup-error items, the counted names and the sidechain flags of all of
    them. *)
Lemma scan_read_ok (lines : list line) (st : stats) :
  read_ok lines ->
  for_each scan_line lines st =
  (Ok tt,
   with_counts (message_count st + length lines)
     (warmup_errors st + file_warmups lines)
     (count_all (file_names lines) (tool_calls st))
     (is_sidechain st || file_sidechain lines) st).
Proof.
  intros H. revert st. induction H as [|ln lines Hln _ IH]; intros st.
  - destruct st; unfold with_counts; simpl.
    rewrite !Nat.add_0_r, orb_false_r. reflexivity.
  - simpl in Hln. rewrite for_each_cons, scan_line_denotes, Hln, IH.
    rewrite (count_names_hashable _ _ (line_result_hashable _ Hln)).
    unfold with_counts; simpl. unfold file_names; simpl. rewrite count_all_app.
    f_equal. f_equal; [lia | lia | symmetry; apply orb_assoc].
Qed.

(** Any file is read to its end, or has a first line on which the scan stops. *)
Lemma read_ok_or_stops (lines : list line) :
  read_ok lines
  \/ exists pre ln post e,
       lines = pre ++ ln :: post /\ read_ok pre /\ line_result ln = Raise e.
Proof.
  induction lines as [|ln lines IH]; [left; constructor|].
  destruct (line_result ln) as [[]|e] eqn:Hln.
  - destruct IH as [IH|(pre & l & post & e & -> & Hpre & Hl)].
    + left. constructor; assumption.
    + right. exists (ln :: pre), l, post, e. repeat split; auto.
      constructor; assumption.
  - right. exists [], ln, lines, e. repeat split; auto. constructor.
Qed.

Lemma scan_stops (pre post : list line) (ln : line) (e : exn) (st : stats) :
  read_ok pre -> line_result ln = Raise e ->
  for_each scan_line (pre ++ ln :: post) st =
  (Raise e,
   with_counts (S (message_count st + length pre))
     (warmup_errors st + file_warmups pre + line_warmups ln)
     (count_names (line_names ln) (count_all (file_names pre) (tool_calls st)))
     (is_sidechain st || file_sidechain pre || line_sidechain ln) st).
Proof.
  intros Hpre Hln. rewrite for_each_app, (scan_read_ok _ _ Hpre), for_each_cons.
  rewrite scan_line_denotes, Hln. reflexivity.
Qed.

(** The aggregator on a file that is read to its end: the record count is
    the number of lines, decodable or not; the warmup-error count is the
    number of matching items of its user records; the tool counter is what
    counting the names of its assistant records in order gives; the
    sidechain flag is set when some record has a truthy [isSidechain]. *)
Theorem statistics_of_read_file
    (fs : gmap string file) (p : string) (f : file) (lines : list line) (st : stats) :
  fs !! p = Some f ->
  contents f = Text lines ->
  read_ok lines ->
  analyze_session fs p = Ok st ->
  message_count st = length lines
  /\ warmup_errors st = file_warmups lines
  /\ tool_calls st = count_all (file_names lines) []
  /\ is_sidechain st = file_sidechain lines
  /\ path st = p /\ name st = path_name p
  /\ size_kb st = Z.of_N (st_size f) # 1024.
Proof.
  intros Hf Hc Hok Ha.
  destruct (analyze_session_counters _ _ _ _ Hf Ha) as [l ->].
  unfold read_file. rewrite Hc, (scan_read_ok _ _ Hok). simpl. repeat split.
Qed.

Lemma statistics_of_read_file_witness :
  mixed_session !! "/s/a.jsonl" = Some mixed_file
  /\ read_ok (file_lines mixed_file)
  /\ analyze_session mixed_session "/s/a.jsonl"
     = Ok (mkStats "/s/a.jsonl" "a.jsonl" (700 # 1024) 4 1 [(JStr "ls", 2)] false [])
  /\ 4 = length (file_lines mixed_file)
  /\ 1 = file_warmups (file_lines mixed_file)
  /\ [(JStr "ls", 2)] = count_all (file_names (file_lines mixed_file)) []
  /\ false = file_sidechain (file_lines mixed_file)
  /\ "/s/a.jsonl" = "/s/a.jsonl" /\ "a.jsonl" = path_name "/s/a.jsonl"
  /\ 700 # 1024 = Z.of_N 700 # 1024.
Proof.
  assert (Hf : mixed_session !! "/s/a.jsonl" = Some mixed_file) by reflexivity.
  assert (Hok : read_ok (file_lines mixed_file)) by (repeat constructor).
  assert (Ha : analyze_session mixed_session "/s/a.jsonl"
     = Ok (mkStats "/s/a.jsonl" "a.jsonl" (700 # 1024) 4 1 [(JStr "ls", 2)] false []))
    by (vm_compute; reflexivity).
  split; [exact Hf|]. split; [exact Hok|]. split; [exact Ha|].
  exact (statistics_of_read_file mixed_session "/s/a.jsonl" mixed_file
           (file_lines mixed_file) _ Hf eq_refl Hok Ha).
Defined.

(** When a record raises, the read ends there: the statistics are those of
    the lines up to and including that record, with the read error as their
    only issue, and what follows the record in the file changes nothing. *)
Theorem scan_stops_at_first_error
    (fs : gmap string file) (p : string) (size : N) (rm : bool)
    (pre post : list line) (ln : line) (e : exn) :
  read_ok pre ->
  line_result ln = Raise e ->
  analyze_session (<[p := mkFile size (Text (pre ++ ln :: post)) rm]> fs) p
  = Ok (mkStats p (path_name p) (Z.of_N size # 1024)
          (S (length pre))
          (file_warmups pre + line_warmups ln)
          (count_names (line_names ln) (count_all (file_names pre) []))
          (file_sidechain pre || line_sidechain ln)
          ["Error reading file: " +:+ str_of_exn e])
  /\ analyze_session (<[p := mkFile size (Text (pre ++ ln :: post)) rm]> fs) p
     = analyze_session (<[p := mkFile size (Text (pre ++ [ln])) rm]> fs) p.
Proof.
  intros Hpre Hln.
  assert (E : forall post',
    analyze_session (<[p := mkFile size (Text (pre ++ ln :: post')) rm]> fs) p
    = Ok (mkStats p (path_name p) (Z.of_N size # 1024)
          (S (length pre))
          (file_warmups pre + line_warmups ln)
          (count_names (line_names ln) (count_all (file_names pre) []))
          (file_sidechain pre || line_sidechain ln)
          ["Error reading file: " +:+ str_of_exn e])).
  { intros post'. rewrite (analyze_session_eq _ p _ (lookup_insert_eq _ _ _)).
    unfold read_file. cbn [contents].
    rewrite (scan_stops pre post' ln e _ Hpre Hln). reflexivity. }
  split; [apply E|]. rewrite (E post), (E []). reflexivity.
Qed.

Lemma scan_stops_at_first_error_witness :
  read_ok [Decoded (assistant_record [bash_item "ls"])]
  /\ line_result (Decoded str_message_record)
     = Raise (AttributeError "'str' object has no attribute 'get'")
  /\ analyze_session (<["/s/a.jsonl" := mkFile 900 (Text stopped_lines) true]> ∅) "/s/a.jsonl"
     = Ok (mkStats "/s/a.jsonl" "a.jsonl" (900 # 1024) 2 0 [(JStr "ls", 1)] false
             ["Error reading file: 'str' object has no attribute 'get'"]).
Proof.
  assert (H1 : read_ok [Decoded (assistant_record [bash_item "ls"])])
    by (repeat constructor).
  assert (H2 : line_result (Decoded str_message_record)
     = Raise (AttributeError "'str' object has no attribute 'get'")) by reflexivity.
  split; [exact H1|]. split; [exact H2|].
  exact (proj1 (scan_stops_at_first_error ∅ "/s/a.jsonl" 900 true
                  [Decoded (assistant_record [bash_item "ls"])]
                  [Decoded (user_record [warmup_item])]
                  (Decoded str_message_record) _ H1 H2)).
Defined.

(** ** The tool counter *)

Lemma counter_incr_total (k : json) (c : counter) :
  counter_total (counter_incr k c) = S (counter_total c).
Proof.
  induction c as [|[k' n] c IH]; simpl; [reflexivity|].
  destruct (key_eqb k' k); simpl; [reflexivity | rewrite IH; lia].
Qed.

Lemma counter_incr_positive (k : json) (c : counter) :
  Forall (fun entry => 1 <= snd entry) c ->
  Forall (fun entry => 1 <= snd entry) (counter_incr k c).
Proof.
  induction 1 as [|[k' n] c Hn Hc IH]; simpl in *.
  - constructor; [simpl; lia | constructor].
  - destruct (key_eqb k' k); constructor; simpl; auto; lia.
Qed.

Lemma counter_incr_hashable (k : json) (c : counter) :
  hashable k = true ->
  Forall (fun entry => hashable (fst entry) = true) c ->
  Forall (fun entry => hashable (fst entry) = true) (counter_incr k c).
Proof.
  intros Hk. induction 1 as [|[k' n] c Hn Hc IH]; simpl in *.
  - constructor; [exact Hk | constructor].
  - destruct (key_eqb k' k); constructor; simpl; auto.
Qed.

Lemma counter_incr_other_key (k0 k : json) (c : counter) :
  key_eqb k0 k = false ->
  Forall (fun entry => key_eqb k0 (fst entry) = false) c ->
  Forall (fun entry => key_eqb k0 (fst entry) = false) (counter_incr k c).
Proof.
  intros Hk. induction 1 as [|[k' n] c Hn Hc IH]; simpl in *.
  - constructor; [exact Hk | constructor].
  - destruct (key_eqb k' k); constructor; simpl; auto.
Qed.

Lemma counter_incr_distinct (k : json) (c : counter) :
  keys_distinct c -> keys_distinct (counter_incr k c).
Proof.
  induction c as [|[k' n] c IH]; simpl.
  - intros _. split; [constructor | exact I].
  - intros [Hk' Hc]. destruct (key_eqb k' k) eqn:E; simpl.
    + split; assumption.
    + split; [apply counter_incr_other_key; assumption | apply IH, Hc].
Qed.

Lemma count_names_ok (names : list json) (c : counter) :
  counter_ok c -> counter_ok (count_names names c).
Proof.
  revert c. induction names as [|k names IH]; intros c Hc; simpl; [exact Hc|].
  destruct (hashable k) eqn:Hk; [|exact Hc].
  apply IH. destruct Hc as (H1 & H2 & H3).
  split; [apply counter_incr_positive, H1|].
  split; [apply counter_incr_hashable; assumption | apply counter_incr_distinct, H3].
Qed.

Lemma for_each_scan_counter_ok (lines : list line) (st : stats) :
  counter_ok (tool_calls st) -> counter_ok (tool_calls (snd (for_each scan_line lines st))).
Proof.
  revert st. induction lines as [|ln lines IH]; intros st Hst; [exact Hst|].
  rewrite for_each_cons, scan_line_denotes.
  destruct (line_result ln) as [[]|e]; [apply IH|]; simpl; apply count_names_ok, Hst.
Qed.

(** In the statistics of every analysis, each entry of the tool counter has
    a count of at least 1 and a hashable name, and no two entries have names
    that are equal as dictionary keys. *)
Theorem tool_counter_well_formed (fs : gmap string file) (p : string) (st : stats) :
  analyze_session fs p = Ok st ->
  Forall (fun entry => 1 <= snd entry) (tool_calls st)
  /\ Forall (fun entry => hashable (fst entry) = true) (tool_calls st)
  /\ keys_distinct (tool_calls st).
Proof.
  intros Ha. destruct (fs !! p) as [f|] eqn:Hf;
    [|unfold analyze_session in Ha; rewrite Hf in Ha; discriminate].
  destruct (analyze_session_counters _ _ _ _ Hf Ha) as [l ->]. simpl.
  unfold read_file. destruct (contents f) as [err|lines].
  - simpl. repeat split; constructor.
  - apply for_each_scan_counter_ok. simpl. repeat split; constructor.
Qed.

Lemma tool_counter_well_formed_witness :
  analyze_session repeated_session "/s/a.jsonl"
  = Ok (add_issues ["WARNING: Command repeated 51x: npm test..."] repeated_stats)
  /\ Forall (fun entry => 1 <= snd entry) (tool_calls repeated_stats)
  /\ Forall (fun entry => hashable (fst entry) = true) (tool_calls repeated_stats)
  /\ keys_distinct (tool_calls repeated_stats).
Proof.
  assert (Ha : analyze_session repeated_session "/s/a.jsonl"
    = Ok (add_issues ["WARNING: Command repeated 51x: npm test..."] repeated_stats))
    by (vm_compute; reflexivity).
  split; [exact Ha|].
  exact (tool_counter_well_formed repeated_session "/s/a.jsonl" _ Ha).
Defined.

(** ** Counts against the file *)

Lemma count_all_total (names : list json) (c : counter) :
  counter_total (count_all names c) = counter_total c + length names.
Proof.
  revert c. induction names as [|k names IH]; intros c; simpl; [lia|].
  unfold count_all in *. simpl. rewrite IH, counter_incr_total. lia.
Qed.

Lemma count_names_total (names : list json) (c : counter) :
  counter_total (count_names names c) <= counter_total c + length names.
Proof.
  revert c. induction names as [|k names IH]; intros c; simpl; [lia|].
  destruct (hashable k); [|lia].
  specialize (IH (counter_incr k c)). rewrite counter_incr_total in IH. lia.
Qed.

Lemma file_warmups_app (l1 l2 : list line) :
  file_warmups (l1 ++ l2) = file_warmups l1 + file_warmups l2.
Proof. induction l1 as [|ln l1 IH]; simpl; [reflexivity | rewrite IH; lia]. Qed.

Lemma file_names_app (l1 l2 : list line) :
  file_names (l1 ++ l2) = file_names l1 ++ file_names l2.
Proof. unfold file_names. apply flat_map_app. Qed.

(** The counters of an analysis never exceed what the file holds: the
    record count is at most its number of lines, the warmup-error count at
    most the matching items of its user records, and the tool counts add up
    to at most the countable items of its assistant records; for a file
    that is read to its end the three are equal. *)
Theorem counts_within_file
    (fs : gmap string file) (p : string) (f : file) (st : stats) :
  fs !! p = Some f ->
  analyze_session fs p = Ok st ->
  (message_count st <= length (file_lines f)
   /\ warmup_errors st <= file_warmups (file_lines f)
   /\ counter_total (tool_calls st) <= length (file_names (file_lines f)))
  /\ (existsb is_read_error (issues st) = false ->
      message_count st = length (file_lines f)
      /\ warmup_errors st = file_warmups (file_lines f)
      /\ counter_total (tool_calls st) = length (file_names (file_lines f))).
Proof.
  intros Hf Ha. rewrite (analyze_session_eq _ _ _ Hf) in Ha.
  destruct (read_file_frame f (initial_stats p f)) as (_ & _ & _ & His).
  change (issues (initial_stats p f)) with (@nil string) in His.
  unfold read_file, file_lines in *. destruct (contents f) as [err|lines].
  - unfold lift in Ha. injection Ha as <-. simpl. split; [lia|].
    intros Herr. vm_compute in Herr. discriminate.
  - destruct (read_ok_or_stops lines) as [Hok|(pre & ln & post & e & -> & Hpre & Hln)].
    + rewrite (scan_read_ok _ _ Hok) in Ha. cbn [fst snd] in Ha.
      destruct (fst (command_warnings _)); [|discriminate].
      injection Ha as <-. simpl. rewrite count_all_total. simpl.
      split; [lia|]. intros _. repeat split.
    + rewrite (scan_stops _ _ _ _ _ Hpre Hln) in Ha, His. cbn [fst snd] in Ha, His.
      injection Ha as <-. cbn [message_count warmup_errors tool_calls issues
                                append_issue with_counts initial_stats].
      rewrite length_app, file_warmups_app, file_names_app, length_app. simpl.
      pose proof (count_names_total (line_names ln) (count_all (file_names pre) [])) as Ht.
      rewrite count_all_total in Ht. simpl in Ht. rewrite length_app.
      split; [lia|].
      intros Herr. vm_compute in Herr. discriminate.
Qed.

Lemma counts_within_file_witness :
  mixed_session !! "/s/a.jsonl" = Some mixed_file
  /\ analyze_session mixed_session "/s/a.jsonl"
     = Ok (mkStats "/s/a.jsonl" "a.jsonl" (700 # 1024) 4 1 [(JStr "ls", 2)] false [])
  /\ (4 <= length (file_lines mixed_file)
      /\ 1 <= file_warmups (file_lines mixed_file)
      /\ counter_total [(JStr "ls", 2)] <= length (file_names (file_lines mixed_file)))
  /\ (existsb is_read_error [] = false ->
      4 = length (file_lines mixed_file)
      /\ 1 = file_warmups (file_lines mixed_file)
      /\ counter_total [(JStr "ls", 2)] = length (file_names (file_lines mixed_file))).
Proof.
  assert (Hf : mixed_session !! "/s/a.jsonl" = Some mixed_file) by reflexivity.
  assert (Ha : analyze_session mixed_session "/s/a.jsonl"
     = Ok (mkStats "/s/a.jsonl" "a.jsonl" (700 # 1024) 4 1 [(JStr "ls", 2)] false []))
    by (vm_compute; reflexivity).
  split; [exact Hf|]. split; [exact Ha|].
  exact (counts_within_file mixed_session "/s/a.jsonl" mixed_file _ Hf Ha).
Defined.

(** ** The rules, one by one *)

Lemma command_warnings_filter (P : string -> bool) (l : list (json * nat)) :
  (forall count s, P (command_issue count s) = false) ->
  List.filter P (snd (command_warnings l)) = [].
Proof.
  intros HP. induction l as [|[cmd count] l IH]; simpl; [reflexivity|].
  destruct (50 <? count); [|exact IH].
  destruct cmd; try reflexivity. simpl. rewrite HP. exact IH.
Qed.

Lemma command_warnings_length (l : list (json * nat)) :
  length (snd (command_warnings l)) <= length l.
Proof.
  induction l as [|[cmd count] l IH]; simpl; [lia|].
  destruct (50 <? count); [|lia]. destruct cmd; simpl; lia.
Qed.

(** The statistics of an analysis with no read-error issue are what the
    rules made of the statistics the [try] block left. *)
Lemma analyze_session_rules (fs : gmap string file) (p : string) (f : file) (st : stats) :
  fs !! p = Some f ->
  analyze_session fs p = Ok st ->
  existsb is_read_error (issues st) = false ->
  exists st1,
    read_file f (initial_stats p f) = (Ok tt, st1)
    /\ st = add_issues (rule_issues st1) st1 /\ issues st1 = []
    /\ fst (command_warnings (most_common 5 (tool_calls st1))) = Ok tt.
Proof.
  intros Hf Ha Herr. rewrite (analyze_session_eq _ _ _ Hf) in Ha.
  destruct (read_file_frame f (initial_stats p f)) as (_ & _ & _ & His).
  change (issues (initial_stats p f)) with (@nil string) in His.
  destruct (read_file f (initial_stats p f)) as [[[]|e] st1]; cbn [fst snd] in *.
  - destruct (fst (command_warnings _)) as [[]|e] eqn:Hc; [|discriminate].
    injection Ha as <-. exists st1. auto.
  - injection Ha as <-. cbn [issues append_issue] in Herr. rewrite His in Herr.
    vm_compute in Herr. discriminate.
Qed.

(** The warmup rule and the message-count rule are strict and fire on their
    own count alone: in an analysis with no read-error issue there is one
    CRITICAL issue when the warmup-error count is above 10 and none at 10 or
    below, and one message-count WARNING when the record count is above 500
    and none at 500 or below; each cites its count. *)
Theorem warmup_and_message_rules
    (fs : gmap string file) (p : string) (f : file) (st : stats) :
  fs !! p = Some f ->
  analyze_session fs p = Ok st ->
  existsb is_read_error (issues st) = false ->
  List.filter is_critical (issues st)
  = (if 10 <? warmup_errors st
     then ["CRITICAL: Warmup loop detected (" +:+ str_of_nat (warmup_errors st)
           +:+ " warmup errors)"]
     else [])
  /\ List.filter is_messages_warning (issues st)
  = (if 500 <? message_count st
     then ["WARNING: Excessive messages (" +:+ str_of_nat (message_count st) +:+ ")"]
     else []).
Proof.
  intros Hf Ha Herr.
  destruct (analyze_session_rules _ _ _ _ Hf Ha Herr) as (st1 & _ & -> & His & _).
  cbn [issues add_issues warmup_errors message_count]. rewrite His. cbn [app].
  unfold rule_issues. rewrite !List.filter_app.
  rewrite !command_warnings_filter by reflexivity.
  split.
  - destruct (10 <? warmup_errors st1), (500 <? message_count st1),
      (negb (Qle_bool (size_kb st1) 2000)); reflexivity.
  - destruct (10 <? warmup_errors st1), (500 <? message_count st1),
      (negb (Qle_bool (size_kb st1) 2000)); reflexivity.
Qed.

Lemma warmup_and_message_rules_witness :
  stuck_session !! "/s/stuck.jsonl" = Some stuck_file
  /\ analyze_session stuck_session "/s/stuck.jsonl"
     = Ok (mkStats "/s/stuck.jsonl" "stuck.jsonl" (70000 # 1024) 502 11 [] false
             ["CRITICAL: Warmup loop detected (11 warmup errors)";
              "WARNING: Excessive messages (502)"])
  /\ List.filter is_critical
       ["CRITICAL: Warmup loop detected (11 warmup errors)";
        "WARNING: Excessive messages (502)"]
     = ["CRITICAL: Warmup loop detected (11 warmup errors)"]
  /\ List.filter is_messages_warning
       ["CRITICAL: Warmup loop detected (11 warmup errors)";
        "WARNING: Excessive messages (502)"]
     = ["WARNING: Excessive messages (502)"].
Proof.
  assert (Hf : stuck_session !! "/s/stuck.jsonl" = Some stuck_file) by reflexivity.
  assert (Ha : analyze_session stuck_session "/s/stuck.jsonl"
     = Ok (mkStats "/s/stuck.jsonl" "stuck.jsonl" (70000 # 1024) 502 11 [] false
             ["CRITICAL: Warmup loop detected (11 warmup errors)";
              "WARNING: Excessive messages (502)"])) by (vm_compute; reflexivity).
  split; [exact Hf|]. split; [exact Ha|].
  exact (warmup_and_message_rules stuck_session "/s/stuck.jsonl" stuck_file _ Hf Ha eq_refl).
Defined.

(** ** Healthy files *)

Lemma command_warnings_silent (l : list (json * nat)) :
  fst (command_warnings l) = Ok tt -> snd (command_warnings l) = [] ->
  Forall (fun e => repeated e = false) l.
Proof.
  induction l as [|[cmd count] l IH]; simpl; [constructor|].
  destruct (50 <? count) eqn:E.
  - destruct cmd; simpl; discriminate.
  - intros H1 H2. constructor; [exact E | apply IH; assumption].
Qed.

Lemma sort_desc_head_max (c : counter) (x : json * nat) (rest : list (json * nat)) :
  sort_desc c = x :: rest -> Forall (fun e => snd e <= snd x) c.
Proof.
  intros E. pose proof (sort_desc_sorted c) as Hs. rewrite E in Hs.
  apply Sorted_StronglySorted in Hs; [|intros a b d; simpl; lia].
  apply StronglySorted_inv in Hs as [_ Hrest].
  assert (Hall : Forall (fun e => snd e <= snd x) (x :: rest)) by (constructor; auto).
  rewrite <- E in Hall.
  rewrite List.Forall_forall in *. intros e He. apply Hall.
  eapply Permutation_in; [symmetry; apply sort_desc_perm | exact He].
Qed.

Lemma most_common_quiet (c : counter) :
  Forall (fun e => repeated e = false) (most_common 5 c) ->
  Forall (fun e => repeated e = false) c.
Proof.
  unfold most_common. destruct (sort_desc c) as [|x rest] eqn:E.
  - intros _. destruct c as [|y c]; [constructor|].
    pose proof (Permutation_length (sort_desc_perm (y :: c))) as Hl.
    rewrite E in Hl. discriminate.
  - simpl. intros H. inversion H as [|? ? Hx _]; subst.
    pose proof (sort_desc_head_max _ _ _ E) as Hmax.
    eapply List.Forall_impl; [|exact Hmax].
    intros e He. unfold repeated in *. apply Nat.ltb_ge. apply Nat.ltb_ge in Hx. lia.
Qed.

Lemma cond_nil {A : Type} (c : bool) (x : A) :
  (if c then [x] else []) = [] -> c = false.
Proof. destruct c; [discriminate | reflexivity]. Qed.

(** A file is healthy exactly when it is read to its end and no threshold
    is passed: the statistics of an analysis have no issue if and only if
    the file could be opened and no line raised, the warmup-error count is at
    most 10, the record count at most 500, every tool count at most 50 and
    the size at most 2000 * 1024 bytes. *)
Theorem healthy_iff
    (fs : gmap string file) (p : string) (f : file) (st : stats) :
  fs !! p = Some f ->
  analyze_session fs p = Ok st ->
  issues st = [] <->
  (exists lines, contents f = Text lines /\ read_ok lines)
  /\ warmup_errors st <= 10
  /\ message_count st <= 500
  /\ Forall (fun entry => snd entry <= 50) (tool_calls st)
  /\ (st_size f <= 2000 * 1024)%N.
Proof.
  intros Hf Ha. split.
  - intros Hnil.
    assert (Herr : existsb is_read_error (issues st) = false) by (rewrite Hnil; reflexivity).
    destruct (analyze_session_rules _ _ _ _ Hf Ha Herr) as (st1 & Hread & -> & His & Hc).
    cbn [issues add_issues] in Hnil. rewrite His in Hnil. cbn [app] in Hnil.
    unfold rule_issues in Hnil.
    apply app_eq_nil in Hnil as [N1 Hnil]. apply app_eq_nil in Hnil as [N2 Hnil].
    apply app_eq_nil in Hnil as [N3 N4].
    apply cond_nil in N1, N2, N4.
    destruct (read_file_frame f (initial_stats p f)) as (_ & _ & Hkb & _).
    rewrite Hread in Hkb. cbn [snd] in Hkb.
    change (size_kb (initial_stats p f)) with (Z.of_N (st_size f) # 1024) in Hkb.
    rewrite Hkb, size_rule in N4.
    cbn [warmup_errors message_count tool_calls add_issues].
    split; [|split; [|split; [|split]]].
    + unfold read_file in Hread. destruct (contents f) as [err|lines]; [discriminate|].
      exists lines. split; [reflexivity|].
      destruct (read_ok_or_stops lines) as [Hok|(pre & ln & post & e & -> & Hpre & Hln)];
        [exact Hok|].
      rewrite (scan_stops _ _ _ _ _ Hpre Hln) in Hread. discriminate.
    + apply Nat.ltb_ge in N1. exact N1.
    + apply Nat.ltb_ge in N2. exact N2.
    + pose proof (most_common_quiet _ (command_warnings_silent _ Hc N3)) as Hq.
      eapply List.Forall_impl; [|exact Hq].
      intros e He. unfold repeated in He. apply Nat.ltb_ge in He. exact He.
    + apply N.ltb_ge in N4. exact N4.
  - intros ((lines & Hl & Hok) & Hw & Hm & Ht & Hs).
    rewrite (analyze_session_eq _ _ _ Hf) in Ha. unfold read_file in Ha.
    rewrite Hl, (scan_read_ok _ _ Hok) in Ha. cbn [fst snd] in Ha.
    set (st1 := with_counts _ _ _ _ _) in *.
    assert (Hq : Forall (fun e => repeated e = false) (most_common 5 (tool_calls st1))).
    { unfold most_common. apply Forall_firstn, sort_desc_Forall.
      destruct (fst (command_warnings _)); [|discriminate].
      injection Ha as <-. eapply List.Forall_impl; [|exact Ht].
      intros e He. unfold repeated. apply Nat.ltb_ge. exact He. }
    rewrite (command_warnings_quiet _ Hq) in Ha. cbn [fst] in Ha.
    injection Ha as <-. cbn [issues add_issues]. unfold rule_issues.
    rewrite (command_warnings_quiet _ Hq). cbn [snd].
    cbn [warmup_errors message_count add_issues] in Hw, Hm.
    assert (E1 : (10 <? warmup_errors st1) = false) by (apply Nat.ltb_ge; exact Hw).
    assert (E2 : (500 <? message_count st1) = false) by (apply Nat.ltb_ge; exact Hm).
    assert (E3 : negb (Qle_bool (size_kb st1) 2000) = false).
    { change (size_kb st1) with (Z.of_N (st_size f) # 1024).
      rewrite size_rule. apply N.ltb_ge. exact Hs. }
    rewrite E1, E2, E3. reflexivity.
Qed.

Lemma healthy_iff_witness :
  mixed_session !! "/s/a.jsonl" = Some mixed_file
  /\ analyze_session mixed_session "/s/a.jsonl"
     = Ok (mkStats "/s/a.jsonl" "a.jsonl" (700 # 1024) 4 1 [(JStr "ls", 2)] false [])
  /\ (@nil string = [] <->
      (exists lines, contents mixed_file = Text lines /\ read_ok lines)
      /\ 1 <= 10 /\ 4 <= 500
      /\ Forall (fun entry => snd entry <= 50) [(JStr "ls", 2)]
      /\ (st_size mixed_file <= 2000 * 1024)%N).
Proof.
  assert (Hf : mixed_session !! "/s/a.jsonl" = Some mixed_file) by reflexivity.
  assert (Ha : analyze_session mixed_session "/s/a.jsonl"
     = Ok (mkStats "/s/a.jsonl" "a.jsonl" (700 # 1024) 4 1 [(JStr "ls", 2)] false []))
    by (vm_compute; reflexivity).
  split; [exact Hf|]. split; [exact Ha|].
  exact (healthy_iff mixed_session "/s/a.jsonl" mixed_file _ Hf Ha).
Defined.

(** ** The shape of the issue list *)

(** An analysis reports at most eight issues, at most five of them about
    repeated commands; a CRITICAL issue, when there is one, is the first of
    the list; and a read error, when there is one, is the only issue. *)
Theorem issue_list_shape (fs : gmap string file) (p : string) (st : stats) :
  analyze_session fs p = Ok st ->
  length (issues st) <= 8
  /\ length (List.filter is_command_warning (issues st)) <= 5
  /\ (forall i, In i (issues st) -> is_critical i = true -> head (issues st) = Some i)
  /\ (forall i, In i (issues st) -> is_read_error i = true -> issues st = [i]).
Proof.
  intros Ha. destruct (fs !! p) as [f|] eqn:Hf;
    [|unfold analyze_session in Ha; rewrite Hf in Ha; discriminate].
  rewrite (analyze_session_eq _ _ _ Hf) in Ha.
  destruct (read_file_frame f (initial_stats p f)) as (_ & _ & _ & His).
  change (issues (initial_stats p f)) with (@nil string) in His.
  destruct (read_file f (initial_stats p f)) as [[[]|e] st1]; cbn [fst snd] in *.
  - destruct (fst (command_warnings _)); [|discriminate].
    injection Ha as <-. cbn [issues add_issues]. rewrite His. cbn [app].
    unfold rule_issues.
    pose proof (command_warnings_length (most_common 5 (tool_calls st1))) as Hlen.
    assert (H5 : length (most_common 5 (tool_calls st1)) <= 5)
      by (unfold most_common; rewrite length_firstn; lia).
    set (cw := snd (command_warnings (most_common 5 (tool_calls st1)))) in *.
    assert (Hcw : forall i, In i cw -> is_critical i = false /\ is_read_error i = false).
    { intros i Hi. subst cw. apply command_warnings_In in Hi as (s & c & _ & _ & ->).
      split; reflexivity. }
    split; [|split; [|split]].
    + rewrite !length_app.
      destruct (10 <? warmup_errors st1), (500 <? message_count st1),
        (negb (Qle_bool (size_kb st1) 2000)); simpl; lia.
    + rewrite !List.filter_app, !length_app.
      pose proof (List.filter_length_le is_command_warning cw).
      destruct (10 <? warmup_errors st1), (500 <? message_count st1),
        (negb (Qle_bool (size_kb st1) 2000)); simpl; lia.
    + intros i Hi Hc.
      repeat (apply in_app_or in Hi; destruct Hi as [Hi|Hi]).
      * destruct (10 <? warmup_errors st1); [|destruct Hi].
        destruct Hi as [<-|[]]. reflexivity.
      * destruct (500 <? message_count st1); [|destruct Hi].
        destruct Hi as [<-|[]]. discriminate.
      * apply Hcw in Hi as [Hi _]. congruence.
      * destruct (negb _); [|destruct Hi]. destruct Hi as [<-|[]]. discriminate.
    + intros i Hi Hc. exfalso.
      repeat (apply in_app_or in Hi; destruct Hi as [Hi|Hi]).
      * destruct (10 <? warmup_errors st1); [|destruct Hi].
        destruct Hi as [<-|[]]. discriminate.
      * destruct (500 <? message_count st1); [|destruct Hi].
        destruct Hi as [<-|[]]. discriminate.
      * apply Hcw in Hi as [_ Hi]. congruence.
      * destruct (negb _); [|destruct Hi]. destruct Hi as [<-|[]]. discriminate.
  - injection Ha as <-. cbn [issues append_issue]. rewrite His. cbn [app].
    split; [simpl; lia|]. split.
    + pose proof (List.filter_length_le is_command_warning
                    [read_error_issue (str_of_exn e)]) as Hle.
      simpl length in Hle at 2. lia.
    + split; intros i [<-|[]] _; reflexivity.
Qed.

Lemma issue_list_shape_witness :
  analyze_session stuck_session "/s/stuck.jsonl"
  = Ok (mkStats "/s/stuck.jsonl" "stuck.jsonl" (70000 # 1024) 502 11 [] false
          ["CRITICAL: Warmup loop detected (11 warmup errors)";
           "WARNING: Excessive messages (502)"])
  /\ length ["CRITICAL: Warmup loop detected (11 warmup errors)";
             "WARNING: Excessive messages (502)"] <= 8.
Proof.
  assert (Ha : analyze_session stuck_session "/s/stuck.jsonl"
     = Ok (mkStats "/s/stuck.jsonl" "stuck.jsonl" (70000 # 1024) 502 11 [] false
             ["CRITICAL: Warmup loop detected (11 warmup errors)";
              "WARNING: Excessive messages (502)"])) by (vm_compute; reflexivity).
  split; [exact Ha|].
  exact (proj1 (issue_list_shape stuck_session "/s/stuck.jsonl" _ Ha)).
Defined.

(** ** Runs that no exception ends *)

Lemma find_sessions_rglob (w : world) (base_path : string) :
  find_sessions w base_path = rglob w base_path.
Proof.
  unfold find_sessions.
  assert (H : forall l acc : list string,
             fold_left (fun sessions jsonl => sessions ++ [jsonl]) l acc = acc ++ l).
  { induction l as [|x l IH]; intros acc; simpl.
    - rewrite app_nil_r. reflexivity.
    - rewrite IH, <- app_assoc. reflexivity. }
  apply (H _ []).
Qed.

Lemma counter_incr_string_keys (s : string) (c : counter) :
  string_keys c -> string_keys (counter_incr (JStr s) c).
Proof.
  unfold string_keys. induction 1 as [|[k n] c Hk Hc IH]; simpl in *.
  - constructor; [eexists; reflexivity | constructor].
  - destruct (key_eqb k (JStr s)); constructor; simpl; auto.
Qed.

Lemma count_names_string_keys (names : list json) (c : counter) :
  Forall (fun k => exists s, k = JStr s) names ->
  string_keys c -> string_keys (count_names names c).
Proof.
  intros H. revert c. induction H as [|k names [s ->] _ IH]; intros c Hc; simpl.
  - exact Hc.
  - apply IH, counter_incr_string_keys, Hc.
Qed.

Lemma for_each_scan_string_keys (lines : list line) (st : stats) :
  Forall (fun ln => Forall (fun k => exists s, k = JStr s) (line_names ln)) lines ->
  string_keys (tool_calls st) ->
  string_keys (tool_calls (snd (for_each scan_line lines st))).
Proof.
  intros H. revert st. induction H as [|ln lines Hln _ IH]; intros st Hst; [exact Hst|].
  rewrite for_each_cons, scan_line_denotes.
  destruct (line_result ln) as [[]|e]; [apply IH|]; simpl;
    apply count_names_string_keys; assumption.
Qed.

Lemma command_warnings_string_keys (l : list (json * nat)) :
  string_keys l -> fst (command_warnings l) = Ok tt.
Proof.
  unfold string_keys. induction 1 as [|[k n] l [s Hs] _ IH]; simpl in *; [reflexivity|].
  subst k. destruct (50 <? n); simpl; exact IH.
Qed.

(** The analysis of a file that exists returns statistics, whatever its
    lines hold, as long as the names its assistant records count are
    strings: no other content makes [analyze_session] raise. *)
Theorem analysis_returns (fs : gmap string file) (p : string) (f : file) :
  fs !! p = Some f ->
  string_names f ->
  exists st, analyze_session fs p = Ok st /\ path st = p.
Proof.
  intros Hf Hn.
  assert (Hk : string_keys (tool_calls (snd (read_file f (initial_stats p f))))).
  { unfold read_file, string_names, file_lines in *.
    destruct (contents f) as [err|lines]; [constructor|].
    apply for_each_scan_string_keys; [exact Hn | constructor]. }
  assert (E : exists st, analyze_session fs p = Ok st).
  { rewrite (analyze_session_eq _ _ _ Hf).
    destruct (read_file f (initial_stats p f)) as [[[]|e] st1]; [|eauto].
    cbn [snd] in Hk.
    rewrite (command_warnings_string_keys (most_common 5 (tool_calls st1))); [eauto|].
    unfold most_common. apply Forall_firstn, sort_desc_Forall, Hk. }
  destruct E as [st E]. exists st. split; [exact E | exact (analyze_session_path _ _ _ E)].
Qed.

Lemma analysis_returns_witness :
  mixed_session !! "/s/a.jsonl" = Some mixed_file
  /\ string_names mixed_file
  /\ exists st, analyze_session mixed_session "/s/a.jsonl" = Ok st /\ path st = "/s/a.jsonl".
Proof.
  assert (Hf : mixed_session !! "/s/a.jsonl" = Some mixed_file) by reflexivity.
  assert (Hn : string_names mixed_file).
  { repeat constructor. all: eexists; reflexivity. }
  split; [exact Hf|]. split; [exact Hn|].
  exact (analysis_returns mixed_session "/s/a.jsonl" mixed_file Hf Hn).
Defined.

Lemma scan_sessions_returns (fs : gmap string file) (sessions : list string)
    (res0 prob0 : list stats) :
  Forall (fun p => exists st, analyze_session fs p = Ok st) sessions ->
  exists res prob, scan_sessions fs sessions res0 prob0 = Ok (res, prob).
Proof.
  intros H. revert res0 prob0. induction H as [|p sessions [st Hp] _ IH];
    intros res0 prob0; simpl.
  - eauto.
  - rewrite Hp. apply IH.
Qed.

Lemma main_lists (a : args) (w : world) (res prob : list stats) :
  path_exists w (args_path a) = true ->
  scan_sessions (files w) (find_sessions w (args_path a)) [] [] = Ok (res, prob) ->
  results (main a w) = res /\ problematic (main a w) = prob.
Proof.
  intros He Hs. unfold main. rewrite He, Hs. simpl.
  destruct (args_json a); [auto|].
  destruct prob as [|st prob]; [auto|].
  destruct (report w (st :: prob)); [|auto].
  destruct (args_fix a); [|auto].
  destruct (cleanup w (st :: prob) (files w)) as [[] fs']; auto.
Qed.

(** A run over files that exist and whose counted names are strings goes
    through every path that [rglob] yields: each gets its statistics, in
    the order of discovery, and one corrupt or unreadable file among them
    ends nothing.  Without [--json], when what is printed of the problematic
    sessions can be written, the status handed to [sys.exit] is the number
    of files with an issue. *)
Theorem run_completes (a : args) (w : world) :
  path_exists w (args_path a) = true ->
  args_json a = false ->
  Forall (fun p => exists f, files w !! p = Some f /\ string_names f)
    (rglob w (args_path a)) ->
  Forall2 (fun p st => analyze_session (files w) p = Ok st)
    (rglob w (args_path a)) (results (main a w))
  /\ problematic (main a w)
     = List.filter (fun st => negb (bool_decide (issues st = []))) (results (main a w))
  /\ (Forall (printable w) (problematic (main a w)) ->
      exit_status (main a w) = length (problematic (main a w))).
Proof.
  intros He Hj Hall.
  assert (Hret : Forall (fun p => exists st, analyze_session (files w) p = Ok st)
                   (find_sessions w (args_path a))).
  { rewrite find_sessions_rglob. eapply List.Forall_impl; [|exact Hall].
    intros p (f & Hf & Hn). destruct (analysis_returns _ _ _ Hf Hn) as (st & Hst & _).
    eauto. }
  destruct (scan_sessions_returns _ _ [] [] Hret) as (res & prob & Hs).
  destruct (main_lists a w res prob He Hs) as [Hres Hprob]. rewrite Hres, Hprob.
  destruct (scan_sessions_spec _ _ _ _ _ _ Hs) as (new & Hnew & Hr & Hp).
  simpl in Hr, Hp. subst new. rewrite find_sessions_rglob in Hnew.
  split; [exact Hnew|]. split; [exact Hp|].
  intros Hpr. unfold main. rewrite He, Hs, Hj. simpl.
  destruct prob as [|st prob]; [reflexivity|].
  rewrite (report_printable w _ Hpr).
  destruct (args_fix a); [|reflexivity].
  pose proof (cleanup_printable w (st :: prob) (files w) Hpr) as Hc.
  destruct (cleanup w (st :: prob) (files w)) as [[] fs']; [reflexivity | discriminate].
Qed.

Lemma run_completes_witness :
  Forall (fun p => exists f, files cleanup_world !! p = Some f /\ string_names f)
    (rglob cleanup_world "/s")
  /\ exit_status (main (mkArgs false "/s" false) cleanup_world) = 2.
Proof.
  assert (Hall : Forall (fun p => exists f, files cleanup_world !! p = Some f /\ string_names f)
    (rglob cleanup_world (args_path (mkArgs false "/s" false)))).
  { repeat constructor.
    - exists stuck_file. split; [reflexivity|].
      unfold string_names, stuck_file, file_lines. cbn [contents].
      constructor; [constructor|].
      apply List.Forall_forall. intros ln Hin. apply repeat_spec in Hin. subst.
      constructor.
    - exists locked_file. split; [reflexivity | repeat constructor].
    - exists mixed_file. split; [reflexivity|].
      repeat constructor. all: eexists; reflexivity. }
  split; [exact Hall|].
  destruct (run_completes (mkArgs false "/s" false) cleanup_world eq_refl eq_refl Hall)
    as (_ & _ & Hx).
  rewrite Hx; [vm_compute; reflexivity|].
  vm_compute. repeat constructor.
Defined.

(** ** The cleanup phase *)

Lemma startswith_app (s a b : string) :
  startswith s (a +:+ b) = true -> startswith s a = true.
Proof.
  revert s. induction a as [|c a IH]; intros s; [reflexivity|].
  simpl. destruct s as [|c' s]; [discriminate|].
  intros [Hc Hs]%andb_true_iff. rewrite Hc. simpl. apply IH, Hs.
Qed.

Lemma is_critical_str_in (i : string) :
  is_critical i = true -> str_in "CRITICAL" i = true.
Proof.
  intros H. apply (startswith_app i "CRITICAL" ": ") in H.
  destruct i as [|c i]; [discriminate H|].
  change (str_in "CRITICAL" (String c i))
    with (startswith (String c i) "CRITICAL" || str_in "CRITICAL" i).
  rewrite H. reflexivity.
Qed.

(** The loop only removes: a path ends with the file it had, or with none
    when the loop removed it for statistics whose issues hold the text. *)
Lemma cleanup_only_removes (w : world) (prob : list stats) (fs : gmap string file) (q : string) :
  snd (cleanup w prob fs) !! q = fs !! q
  \/ (snd (cleanup w prob fs) !! q = None
      /\ exists st f, In st prob /\ path st = q
           /\ existsb (str_in "CRITICAL") (issues st) = true
           /\ fs !! q = Some f /\ removable f = true).
Proof.
  revert fs. induction prob as [|st prob IH]; intros fs; cbn [cleanup]; [left; reflexivity|].
  assert (Hrest : forall fs', fs' !! q = fs !! q ->
    snd (cleanup w prob fs') !! q = fs !! q
    \/ (snd (cleanup w prob fs') !! q = None
        /\ exists st' f, In st' (st :: prob) /\ path st' = q
             /\ existsb (str_in "CRITICAL") (issues st') = true
             /\ fs !! q = Some f /\ removable f = true)).
  { intros fs' E. destruct (IH fs') as [H|(H & st' & f & Hin & Hp & Hc & Hf & Hr)].
    - left. rewrite H. exact E.
    - right. split; [exact H|]. exists st', f. rewrite <- E. simpl. auto 10. }
  destruct (existsb (str_in "CRITICAL") (issues st)) eqn:Hc; [|apply Hrest; reflexivity].
  unfold os_remove. destruct (fs !! path st) as [f|] eqn:Hf;
    [|destruct (prints w _); [apply Hrest; reflexivity | left; reflexivity]].
  destruct (removable f) eqn:Hr;
    [|destruct (prints w _); [apply Hrest; reflexivity | left; reflexivity]].
  destruct (decide (path st = q)) as [<-|Hne].
  - right. split.
    + destruct (prints w _); [|apply lookup_delete_eq].
      destruct (IH (delete (path st) fs)) as [H|[H _]]; [|exact H].
      rewrite H. apply lookup_delete_eq.
    + exists st, f. simpl. auto 10.
  - destruct (prints w _);
      [apply Hrest | left]; apply lookup_delete_ne; exact Hne.
Qed.

(** With texts that can be written, the loop goes through every session. *)
Lemma cleanup_cons_printable (w : world) (st : stats) (rest : list stats)
    (fs : gmap string file) :
  printable w st ->
  cleanup w (st :: rest) fs =
  if existsb (str_in "CRITICAL") (issues st) then
    match os_remove (path st) fs with
    | Ok fs' => cleanup w rest fs'
    | Raise _ => cleanup w rest fs
    end
  else cleanup w rest fs.
Proof.
  intros (Hn & Hp & _). cbn [cleanup].
  destruct (existsb (str_in "CRITICAL") (issues st)); [|reflexivity].
  destruct (os_remove (path st) fs) as [fs'|e] eqn:Hr.
  - rewrite prints_app, Hn. reflexivity.
  - rewrite !prints_app, Hn, (os_remove_message w _ _ _ Hr Hp). reflexivity.
Qed.

Lemma cleanup_removes (w : world) (prob : list stats) (fs : gmap string file) (st : stats) :
  Forall (printable w) prob ->
  In st prob ->
  existsb (str_in "CRITICAL") (issues st) = true ->
  (forall f, fs !! path st = Some f -> removable f = true) ->
  snd (cleanup w prob fs) !! path st = None.
Proof.
  intros Hpr. revert fs. induction Hpr as [|st0 prob Hst0 Hpr IH]; intros fs Hin Hc Hr;
    [destruct Hin|].
  assert (Hnone : forall fs', fs' !! path st = None ->
                  snd (cleanup w prob fs') !! path st = None).
  { intros fs' E. destruct (cleanup_only_removes w prob fs' (path st)) as [H|[H _]];
      [rewrite H; exact E | exact H]. }
  rewrite (cleanup_cons_printable w st0 prob fs Hst0).
  destruct (decide (path st0 = path st)) as [Ep|Hne].
  - assert (Hc0 : existsb (str_in "CRITICAL") (issues st0) = true \/ In st prob).
    { destruct Hin as [->|Hin]; auto. }
    destruct (existsb (str_in "CRITICAL") (issues st0)) eqn:Hc0'.
    + unfold os_remove. rewrite Ep.
      destruct (fs !! path st) as [f|] eqn:Hf; [|apply Hnone, Hf].
      rewrite (Hr f eq_refl). apply Hnone, lookup_delete_eq.
    + destruct Hc0 as [?|Hin']; [discriminate|]. apply IH; assumption.
  - assert (Hin' : In st prob).
    { destruct Hin as [->|Hin]; [congruence | exact Hin]. }
    assert (Hd : forall fs', fs' !! path st = fs !! path st ->
                 snd (cleanup w prob fs') !! path st = None).
    { intros fs' E. apply IH; [exact Hin' | exact Hc|]. rewrite E. exact Hr. }
    destruct (existsb (str_in "CRITICAL") (issues st0)); [|apply Hd; reflexivity].
    unfold os_remove. destruct (fs !! path st0) as [f0|]; [|apply Hd; reflexivity].
    destruct (removable f0); [|apply Hd; reflexivity].
    apply Hd, lookup_delete_ne, Hne.
Qed.

Lemma scan_sessions_In (fs : gmap string file) (sessions : list string)
    (res prob : list stats) (st : stats) :
  scan_sessions fs sessions [] [] = Ok (res, prob) ->
  In st prob <->
  In (path st) sessions /\ analyze_session fs (path st) = Ok st /\ issues st <> [].
Proof.
  intros Hs. destruct (scan_sessions_spec _ _ _ _ _ _ Hs) as (new & Hnew & _ & ->).
  simpl. rewrite List.filter_In.
  assert (Hiff : In st new <-> In (path st) sessions /\ analyze_session fs (path st) = Ok st).
  { clear Hs. induction Hnew as [|q st' qs sts Hq _ IH]; simpl; [tauto|].
    pose proof (analyze_session_path _ _ _ Hq) as Hp. split.
    - intros [->|Hin]; [rewrite Hp; auto | tauto].
    - intros [[->|Hin] Ha]; [left; congruence | tauto]. }
  rewrite Hiff, negb_true_iff, bool_decide_eq_false. tauto.
Qed.

(** A run never creates or changes a file.  The one thing it does to the
    disk is to delete, and only with [--fix], without [--json], a file that
    can be unlinked and whose analysis returned an issue holding the text
    CRITICAL; a file whose removal fails stays, and so does everything
    under [--json]. *)
Theorem run_only_deletes (a : args) (w : world) (q : string) :
  disk (main a w) !! q = files w !! q
  \/ (disk (main a w) !! q = None
      /\ args_fix a = true /\ args_json a = false
      /\ exists f st, files w !! q = Some f /\ removable f = true
           /\ analyze_session (files w) q = Ok st
           /\ existsb (str_in "CRITICAL") (issues st) = true).
Proof.
  unfold main. destruct (negb (path_exists w (args_path a))); [left; reflexivity|].
  destruct (scan_sessions _ _ _ _) as [[res prob]|e] eqn:Hs; [|left; reflexivity].
  destruct (args_json a); [left; reflexivity|].
  destruct prob as [|st0 prob0] eqn:Hprob; [left; reflexivity|].
  destruct (report w (st0 :: prob0)); [|left; reflexivity].
  destruct (args_fix a); [|left; reflexivity].
  assert (Hd : disk (let (finished, fs') := cleanup w (st0 :: prob0) (files w) in
                     if finished
                     then mkRun (length (st0 :: prob0)) res (st0 :: prob0) fs'
                     else mkRun 1 res (st0 :: prob0) fs')
               = snd (cleanup w (st0 :: prob0) (files w))).
  { destruct (cleanup w (st0 :: prob0) (files w)) as [[] fs']; reflexivity. }
  rewrite Hd.
  destruct (cleanup_only_removes w (st0 :: prob0) (files w) q)
    as [H|(H & st & f & Hin & Hp & Hc & Hf & Hr)]; [left; exact H|].
  right. repeat split; [exact H|]. exists f, st.
  apply (scan_sessions_In _ _ _ _ st Hs) in Hin as (_ & Ha & _).
  rewrite Hp in Ha. auto.
Qed.

(** With [--fix] and without [--json], in a run that no exception ends (the
    analyses return, and what is printed of the problematic sessions can be
    written), a discovered file whose analysis reports a CRITICAL issue and
    that can be unlinked is gone from the disk afterwards. *)
Theorem critical_file_removed
    (a : args) (w : world) (p : string) (f : file) (st : stats) (res prob : list stats) :
  path_exists w (args_path a) = true ->
  args_fix a = true ->
  args_json a = false ->
  scan_sessions (files w) (find_sessions w (args_path a)) [] [] = Ok (res, prob) ->
  Forall (printable w) prob ->
  In p (rglob w (args_path a)) ->
  analyze_session (files w) p = Ok st ->
  existsb is_critical (issues st) = true ->
  files w !! p = Some f ->
  removable f = true ->
  disk (main a w) !! p = None.
Proof.
  intros He Hfix Hj Hs Hpr Hin Ha Hc Hf Hr.
  pose proof (analyze_session_path _ _ _ Ha) as Hp.
  assert (Hc' : existsb (str_in "CRITICAL") (issues st) = true).
  { apply existsb_exists in Hc as (i & Hi & Hci). apply existsb_exists.
    exists i. split; [exact Hi | apply is_critical_str_in, Hci]. }
  assert (Hprob : In st prob).
  { apply (scan_sessions_In _ _ _ _ st Hs). rewrite Hp, find_sessions_rglob.
    repeat split; auto. intros E. rewrite E in Hc. discriminate. }
  assert (Hgone : snd (cleanup w prob (files w)) !! p = None).
  { rewrite <- Hp. apply cleanup_removes; [exact Hpr | exact Hprob | exact Hc'|].
    rewrite Hp, Hf. intros f' [= <-]. exact Hr. }
  unfold main. rewrite He, Hs, Hj. simpl negb. cbv iota.
  destruct prob as [|st0 prob0]; [destruct Hprob|].
  rewrite (report_printable w _ Hpr), Hfix.
  destruct (cleanup w (st0 :: prob0) (files w)) as [[] fs']; exact Hgone.
Qed.

Lemma report_fails (w : world) (prob : list stats) (st : stats) :
  In st prob ->
  prints w (name st) = false \/ (exists i, In i (issues st) /\ prints w i = false) ->
  report w prob = false.
Proof.
  intros Hin H. apply not_true_is_false. intros Hr.
  unfold report in Hr. rewrite forallb_forall in Hr. specialize (Hr st Hin).
  unfold report_stats in Hr. cbn [prints] in Hr.
  apply andb_true_iff in Hr as [Hn Hi]. simpl in Hn.
  destruct H as [H|(i & Hi' & H)]; [congruence|].
  rewrite forallb_forall in Hi. specialize (Hi i Hi').
  rewrite prints_app in Hi. apply andb_true_iff in Hi as [_ Hi]. congruence.
Qed.

(** Without [--json], when the name or an issue of a problematic session
    cannot be written to [sys.stdout], the [print] of the listing raises and
    nothing catches it: the run ends with status 1 before the cleanup phase,
    and every file is still on disk, with [--fix] as well. *)
Theorem unwritable_listing_ends_the_run
    (a : args) (w : world) (res prob : list stats) (st : stats) :
  path_exists w (args_path a) = true ->
  args_json a = false ->
  scan_sessions (files w) (find_sessions w (args_path a)) [] [] = Ok (res, prob) ->
  In st prob ->
  prints w (name st) = false \/ (exists i, In i (issues st) /\ prints w i = false) ->
  exit_status (main a w) = 1 /\ disk (main a w) = files w.
Proof.
  intros He Hj Hs Hin H. unfold main. rewrite He, Hs, Hj. simpl negb. cbv iota.
  destruct prob as [|st0 prob0]; [destruct Hin|].
  rewrite (report_fails w _ st Hin H). auto.
Qed.

Lemma unwritable_listing_ends_the_run_witness :
  prints ascii_terminal_world (path_name cafe_path) = false
  /\ exit_status (main (mkArgs true "/s" false) ascii_terminal_world) = 1
  /\ disk (main (mkArgs true "/s" false) ascii_terminal_world) !! cafe_path = Some stuck_file.
Proof.
  split; [vm_compute; reflexivity|].
  destruct (scan_sessions (files ascii_terminal_world)
              (find_sessions ascii_terminal_world (args_path (mkArgs true "/s" false))) [] [])
    as [[res prob]|e] eqn:Hs; [|vm_compute in Hs; discriminate].
  assert (Hprob : exists st, In st prob /\ prints ascii_terminal_world (name st) = false).
  { vm_compute in Hs. injection Hs as _ <-. eexists. split; [left; reflexivity|].
    vm_compute. reflexivity. }
  destruct Hprob as (st & Hin & Hn).
  destruct (unwritable_listing_ends_the_run (mkArgs true "/s" false) ascii_terminal_world
              res prob st eq_refl eq_refl Hs Hin (or_introl Hn)) as [Hx Hd].
  split; [exact Hx|]. rewrite Hd. reflexivity.
Defined.

Lemma critical_file_removed_witness :
  analyze_session (files cleanup_world) "/s/stuck.jsonl"
  = Ok (mkStats "/s/stuck.jsonl" "stuck.jsonl" (70000 # 1024) 502 11 [] false
          ["CRITICAL: Warmup loop detected (11 warmup errors)";
           "WARNING: Excessive messages (502)"])
  /\ files cleanup_world !! "/s/stuck.jsonl" = Some stuck_file
  /\ disk (main (mkArgs true "/s" false) cleanup_world) !! "/s/stuck.jsonl" = None.
Proof.
  assert (Ha : analyze_session (files cleanup_world) "/s/stuck.jsonl"
    = Ok (mkStats "/s/stuck.jsonl" "stuck.jsonl" (70000 # 1024) 502 11 [] false
            ["CRITICAL: Warmup loop detected (11 warmup errors)";
             "WARNING: Excessive messages (502)"])) by (vm_compute; reflexivity).
  assert (Hf : files cleanup_world !! "/s/stuck.jsonl" = Some stuck_file) by reflexivity.
  split; [exact Ha|]. split; [exact Hf|].
  destruct (scan_sessions (files cleanup_world)
              (find_sessions cleanup_world (args_path (mkArgs true "/s" false))) [] [])
    as [[res prob]|e] eqn:Hs; [|vm_compute in Hs; discriminate].
  assert (Hpr : Forall (printable cleanup_world) prob).
  { vm_compute in Hs. injection Hs as _ <-. repeat constructor. }
  exact (critical_file_removed (mkArgs true "/s" false) cleanup_world "/s/stuck.jsonl"
           stuck_file _ res prob eq_refl eq_refl eq_refl Hs Hpr
           (or_introl eq_refl) Ha eq_refl Hf eq_refl).
Defined.

(** In the same run the stuck session that cannot be unlinked and the
    healthy one are still there. *)
Example locked_and_healthy_files_stay :
  disk (main (mkArgs true "/s" false) cleanup_world) !! "/s/locked.jsonl" = Some locked_file
  /\ disk (main (mkArgs true "/s" false) cleanup_world) !! "/s/a.jsonl" = Some mixed_file
  /\ disk (main (mkArgs true "/s" true) cleanup_world) = files cleanup_world.
Proof. repeat split; vm_compute; reflexivity. Qed.

(** ** Runs with [--json] *)

(** With [--json] the run only reports: it deletes nothing, whatever
    [--fix] says, and the status it exits with is 0 whatever the files
    hold, or 1 when the base path is missing or an exception ended the
    loop over the sessions. *)
Theorem json_run_reports_only (a : args) (w : world) :
  args_json a = true ->
  disk (main a w) = files w
  /\ (exit_status (main a w) = 0 \/ exit_status (main a w) = 1)
  /\ (exit_status (main a w) = 1 <->
      path_exists w (args_path a) = false
      \/ exists e, scan_sessions (files w) (find_sessions w (args_path a)) [] [] = Raise e).
Proof.
  intros Hj. unfold main.
  destruct (path_exists w (args_path a)); simpl.
  - destruct (scan_sessions _ _ _ _) as [[res prob]|e]; rewrite ?Hj; simpl.
    + split; [reflexivity|]. split; [auto|]. split; [discriminate|].
      intros [H|[e H]]; discriminate.
    + split; [reflexivity|]. split; [auto|]. split; [eauto | reflexivity].
  - split; [reflexivity|]. split; [auto|]. split; [auto | reflexivity].
Qed.

Lemma json_run_reports_only_witness :
  disk (main (mkArgs true "/s" true) cleanup_world) = files cleanup_world
  /\ exit_status (main (mkArgs true "/s" true) cleanup_world) = 0.
Proof.
  destruct (json_run_reports_only (mkArgs true "/s" true) cleanup_world eq_refl)
    as (Hd & _ & _).
  split; [exact Hd | vm_compute; reflexivity].
Defined.
